(** * zip_plot: the data-merge and hierarchical-aggregation engine of [app.py]

    A shallow embedding of [src/app.py].  Data frames are lists of row
    records, in row order; a cell that pandas would hold as NaN is [None].
    The two dictionaries of territory counts are finite maps keyed by
    strings.  Geometry is an abstract type together with the union operation
    that [GeoDataFrame.dissolve] applies to each group; the union may raise
    (a GEOS topology error), which is [None] here.

    Strings are byte strings (UTF-8), compared byte-wise, which agrees with
    Python's code-point order.

    Two column types of the input files are fixed here.  The [calls] column
    of the call plan is an [int64] column (every cell an integer, none
    null): pandas sums such a column with 64-bit wrap-around, and so do the
    sums below.  A call plan with a null or a fractional [calls] cell is
    read as [float64] and summed with rounding; that arithmetic is not
    modelled.  The [territory], [district] and [region] columns of the
    hierarchy file are columns of strings (with nulls); the code casts only
    [zip] to [str], and a hierarchy file whose labels are numbers is not
    modelled either. *)

From Stdlib Require Import ZArith Ascii String.
From stdpp Require Import gmap strings list sorting fin_maps.

Local Open Scope Z_scope.
Local Open Scope string_scope.

(** ** Strings *)

(** [str.lower()], on the ASCII letters.  Bytes of non-ASCII characters are
    left alone: no such character lowers to a letter of the three level
    names matched below, so the choice of the grouping column is that of
    the code for every string; the lowered string itself is that of the
    code for the strings of ASCII characters ([ascii_only]). *)
Definition ascii_lower (c : ascii) : ascii :=
  let n := N_of_ascii c in
  if ((65 <=? n) && (n <=? 90))%N then ascii_of_N (n + 32) else c.

Fixpoint lower (s : string) : string :=
  match s with
  | EmptyString => EmptyString
  | String c s' => String (ascii_lower c) (lower s')
  end.

(** A string of ASCII characters only. *)
Fixpoint ascii_only (s : string) : Prop :=
  match s with
  | EmptyString => True
  | String c s' => (N_of_ascii c < 128)%N ∧ ascii_only s'
  end.

(** ** Column helpers (pandas) *)

(** [Series.unique()]: the distinct values, in order of first appearance. *)
Fixpoint unique (l : list string) : list string :=
  match l with
  | [] => []
  | x :: l' => x :: filter (λ y, y ≠ x) (unique l')
  end.

(** [sorted(...)] on a list of strings. *)
Definition sorted (l : list string) : list string := merge_sort String.le l.

(** The group keys of a [groupby] (default [sort=True]): distinct, ascending. *)
Definition group_keys (keys : list string) : list string := sorted (unique keys).

(** The non-null cells of a column. *)
Definition dropna {A} (col : list (option A)) : list A := omap id col.

(** An [int64] result: the integer [z] wrapped around at 64 bits. *)
Definition wrap_int64 (z : Z) : Z := (z + 2 ^ 63) `mod` 2 ^ 64 - 2 ^ 63.

(** [sum] of an [int64] column: every addition wraps around. *)
Definition sumZ (col : list Z) : Z :=
  foldr (λ x acc, wrap_int64 (x + acc)) 0%Z col.

(** [Series.nunique()]: the number of distinct non-null values. *)
Definition nunique (col : list (option string)) : nat := length (unique (dropna col)).

(** ** 1. Configuration *)

Definition TERRITORY_WORKLOAD_THRESHOLD : Z := 250.

(** ** 2. Data loading and pre-processing *)

(** A row of [hierarchy.csv], [zip] already cast to [str]; the three
    labels are cells of string columns, [None] when null. *)
Record HierRow := {
  h_zip : string;
  h_territory : option string;
  h_district : option string;
  h_region : option string
}.

(** A row of [call_plan.csv], [zip] already cast to [str]; [calls] is a
    cell of an [int64] column. *)
Record CallRow := {
  c_zip : string;
  c_calls : Z;
  c_hcpid : option string
}.

(** A row of [zip_aggregations]. *)
Record AggRow := {
  a_ZCTA5CE20 : string;
  a_calls : Z;
  a_hcp_count : Z
}.

(** A row of [merged_df]: the aggregation joined with the hierarchy columns. *)
Record MergedRow := {
  m_ZCTA5CE20 : string;
  m_calls : Z;
  m_hcp_count : Z;
  m_territory : option string;
  m_district : option string;
  m_region : option string
}.

(** [call_plan_df.groupby('zip').agg(calls=('calls','sum'),
    hcp_count=('hcpid','count')).reset_index()], with [zip] renamed. *)
Definition zip_aggregations (call_plan_df : list CallRow) : list AggRow :=
  (λ z, let grp := filter (λ r, c_zip r = z) call_plan_df in
        {| a_ZCTA5CE20 := z;
           a_calls := sumZ (c_calls <$> grp);
           a_hcp_count := Z.of_nat (length (dropna (c_hcpid <$> grp))) |})
  <$> group_keys (c_zip <$> call_plan_df).

(** [hierarchy_df.groupby(key)['territory'].nunique().to_dict()]: rows with a
    null key are left out of the grouping. *)
Definition territory_counts (key : HierRow → option string)
    (hierarchy_df : list HierRow) : gmap string nat :=
  list_to_map
    ((λ k, (k, nunique (h_territory <$> filter (λ h, key h = Some k) hierarchy_df)))
     <$> group_keys (dropna (key <$> hierarchy_df))).

(** [pd.merge(zip_aggregations, hierarchy_df, on='ZCTA5CE20', how='left')]. *)
Definition merge_left (aggs : list AggRow) (hierarchy_df : list HierRow)
    : list MergedRow :=
  aggs ≫= λ a,
    match filter (λ h, h_zip h = a_ZCTA5CE20 a) hierarchy_df with
    | [] => [ {| m_ZCTA5CE20 := a_ZCTA5CE20 a; m_calls := a_calls a;
                 m_hcp_count := a_hcp_count a;
                 m_territory := None; m_district := None; m_region := None |} ]
    | hs => (λ h, {| m_ZCTA5CE20 := a_ZCTA5CE20 a; m_calls := a_calls a;
                     m_hcp_count := a_hcp_count a;
                     m_territory := h_territory h; m_district := h_district h;
                     m_region := h_region h |}) <$> hs
    end.

(** [.fillna('Unassigned')] on one cell. *)
Definition fillna (cell : option string) : string := default "Unassigned" cell.

Section App.

(** The geometry type of the shapefile, and the union of a group's
    geometries as [dissolve] computes it; [None] is a raised exception. *)
Context {Geometry : Type} (union_all : list Geometry → option Geometry).

(** A row of [zip_geometries]. *)
Record GeomRow := {
  g_ZCTA5CE20 : string;
  g_geometry : Geometry
}.

(** A row of [master_gdf]. *)
Record ZoneRecord := {
  ZCTA5CE20 : string;
  geometry : Geometry;
  calls : Z;
  hcp_count : Z;
  territory : string;
  district : string;
  region : string
}.

(** [pd.merge(zip_geometries, merged_df, on='ZCTA5CE20', how='inner')]
    followed by the [fillna] of the three hierarchy columns. *)
Definition merge_inner_fillna (zip_geometries : list GeomRow)
    (merged_df : list MergedRow) : list ZoneRecord :=
  zip_geometries ≫= λ g,
    (λ m, {| ZCTA5CE20 := g_ZCTA5CE20 g; geometry := g_geometry g;
             calls := m_calls m; hcp_count := m_hcp_count m;
             territory := fillna (m_territory m);
             district := fillna (m_district m);
             region := fillna (m_region m) |})
    <$> filter (λ m, m_ZCTA5CE20 m = g_ZCTA5CE20 g) merged_df.

(** What [load_and_process_data] returns when nothing raised. *)
Record Loaded := {
  master_gdf : list ZoneRecord;
  district_terr_counts : gmap string nat;
  region_terr_counts : gmap string nat
}.

(** [load_and_process_data]: each argument is what reading one of the three
    files gave, [None] when the read raised; the [except] branch returns
    [None] for everything. *)
Definition load_and_process_data (shapefile : option (list GeomRow))
    (call_plan : option (list CallRow)) (hierarchy : option (list HierRow))
    : option Loaded :=
  zip_geometries ← shapefile;
  call_plan_df ← call_plan;
  let zip_aggs := zip_aggregations call_plan_df in
  hierarchy_df ← hierarchy;
  let district_territory_counts := territory_counts h_district hierarchy_df in
  let region_territory_counts := territory_counts h_region hierarchy_df in
  let merged_df := merge_left zip_aggs hierarchy_df in
  Some {| master_gdf := merge_inner_fillna zip_geometries merged_df;
          district_terr_counts := district_territory_counts;
          region_terr_counts := region_territory_counts |}.

(** ** 3. The routes *)

(** The outcome of a route: a JSON body, or status 500 with a message. *)
Inductive Response (A : Type) : Type :=
  | Ok (body : A)
  | Error500 (error : string).
Global Arguments Ok {A} body.
Global Arguments Error500 {A} error.

(** Column access by name on [master_gdf], for the columns a request can
    name; any other name is a [KeyError]. *)
Definition column (col : string) : option (ZoneRecord → string) :=
  if decide (col = "ZCTA5CE20") then Some ZCTA5CE20
  else if decide (col = "territory") then Some territory
  else if decide (col = "district") then Some district
  else if decide (col = "region") then Some region
  else None.

(** A row of [aggregated] after [reset_index().rename(...)]. *)
Record Dissolved := {
  d_name : string;
  d_geometry : Geometry;
  d_calls : Z;
  d_hcp_count : Z
}.

(** [master_gdf.dissolve(by=col, aggfunc={'calls':'sum','hcp_count':'sum'})]:
    one row per distinct key, keys ascending. *)
Definition dissolve (col : string) (gdf : list ZoneRecord)
    : option (list Dissolved) :=
  by_col ← column col;
  mapM (λ k, let grp := filter (λ r, by_col r = k) gdf in
             g ← union_all (geometry <$> grp);
             Some {| d_name := k; d_geometry := g;
                     d_calls := sumZ (calls <$> grp);
                     d_hcp_count := sumZ (hcp_count <$> grp) |})
       (group_keys (by_col <$> gdf)).

(** What [dissolve] makes of the group of key [k]: the row [d]. *)
Definition dissolved_from (by_col : ZoneRecord → string) (gdf : list ZoneRecord)
    (k : string) (d : Dissolved) : Prop :=
  let grp := filter (λ r, by_col r = k) gdf in
  d_name d = k ∧
  union_all (geometry <$> grp) = Some (d_geometry d) ∧
  d_calls d = sumZ (calls <$> grp) ∧
  d_hcp_count d = sumZ (hcp_count <$> grp).

(** A feature of the JSON answer of [/data]. *)
Record AggregatedUnit := {
  name : string;
  u_calls : Z;
  u_hcp_count : Z;
  threshold : Z;
  u_geometry : Geometry
}.

(** The [threshold] column, per row (lines 84-91). *)
Definition threshold_of (db : Loaded) (level : string) (nm : string) : Z :=
  if decide (level = "territory") then TERRITORY_WORKLOAD_THRESHOLD
  else if decide (level = "district") then
    Z.of_nat (default 0%nat (district_terr_counts db !! nm)) * TERRITORY_WORKLOAD_THRESHOLD
  else if decide (level = "region") then
    Z.of_nat (default 0%nat (region_terr_counts db !! nm)) * TERRITORY_WORKLOAD_THRESHOLD
  else 0%Z.

Definition with_threshold (db : Loaded) (level : string) (d : Dissolved)
    : AggregatedUnit :=
  {| name := d_name d; u_calls := d_calls d; u_hcp_count := d_hcp_count d;
     threshold := threshold_of db level (d_name d); u_geometry := d_geometry d |}.

(** The grouping column chosen for a (lowered) level (lines 74-76). *)
Definition dissolve_col (level : string) : string :=
  if decide (level ∈ ["territory"; "district"; "region"]) then level
  else "ZCTA5CE20".

(** [get_geospatial_data]: [st] is the module-level state, [None] when
    loading failed; [level_arg] is the query parameter [level], [None]
    when the request has none. *)
Definition get_geospatial_data (st : option Loaded) (level_arg : option string)
    : Response (list AggregatedUnit) :=
  match st with
  | None => Error500 "Data could not be loaded."
  | Some db =>
      let level := lower (default "Region" level_arg) in
      match dissolve (dissolve_col level) (master_gdf db) with
      | Some aggregated => Ok (with_threshold db level <$> aggregated)
      | None => Error500 ("Failed to process data for level " +:+ level)
      end
  end.

(** The unit that [/data] answers for the group of key [name u], at a
    (lowered) level grouped by [by_col]. *)
Definition unit_of_group (db : Loaded) (level : string)
    (by_col : ZoneRecord → string) (u : AggregatedUnit) : Prop :=
  let grp := filter (λ r, by_col r = name u) (master_gdf db) in
  union_all (geometry <$> grp) = Some (u_geometry u) ∧
  u_calls u = sumZ (calls <$> grp) ∧
  u_hcp_count u = sumZ (hcp_count <$> grp) ∧
  threshold u = threshold_of db level (name u).


(** [l] lists, ascending and without repetition, the values that the
    column [field] takes on the rows of [gdf]. *)
Definition names_of (field : ZoneRecord → string) (gdf : list ZoneRecord)
    (l : list string) : Prop :=
  StronglySorted String.le l ∧ NoDup l ∧ ∀ x, x ∈ l ↔ x ∈ field <$> gdf.

(** [get_all_names]: the dictionary of sorted distinct names per level.
    The labels being strings, [sorted] compares strings with strings and
    always returns; the route has no [try], so an exception of [sorted]
    (labels of mixed types) would leave it uncaught, neither of the two
    responses below. *)
Definition get_all_names (st : option Loaded)
    : Response (gmap string (list string)) :=
  match st with
  | None => Error500 "Data not loaded"
  | Some db =>
      let gdf := master_gdf db in
      Ok (list_to_map
            [ ("region", sorted (unique (region <$> gdf)));
              ("district", sorted (unique (district <$> gdf)));
              ("territory", sorted (unique (territory <$> gdf)));
              ("zip", sorted (unique (ZCTA5CE20 <$> gdf))) ])
  end.

End App.

(** ** Reading the spec's words *)

(** The number of distinct territories under a group [nm] in the raw
    hierarchy rows, the group being read from column [key]: the size of the
    set of territory names on the rows whose [key] cell is [nm]. *)
Definition distinct_territory_count (key : HierRow → option string)
    (hierarchy_df : list HierRow) (nm : string) : nat :=
  size (list_to_set (C := gset string)
          (dropna (h_territory <$> filter (λ h, key h = Some nm) hierarchy_df))).

(** The sum of a column as the spec means it: the sum of the integers. *)
Definition sum_exact (col : list Z) : Z := foldr Z.add 0 col.

(** An integer that an [int64] cell can hold. *)
Definition int64 (z : Z) : Prop := - 2 ^ 63 ≤ z < 2 ^ 63.

(** A column whose sums cannot overflow [int64], in whatever grouping and
    order: the absolute values add up to less than [2 ^ 63]. *)
Definition no_overflow (col : list Z) : Prop :=
  sum_exact (Z.abs <$> col) < 2 ^ 63.



(** ** A small data set

    Geometries are lists of grid cells and their union is concatenation,
    which never raises.  Zone 10003 has calls but no hierarchy row; zone
    10009 has a shape and a hierarchy row but no calls; zone 10007 has calls
    but no shape; district D1 has the territories T1, T2 and T3. *)

Definition cells_union (gs : list (list nat)) : option (list nat) :=
  Some (concat gs).

Definition ex_shapefile : list (@GeomRow (list nat)) :=
  [ {| g_ZCTA5CE20 := "10003"; g_geometry := [3%nat] |};
    {| g_ZCTA5CE20 := "10001"; g_geometry := [1%nat] |};
    {| g_ZCTA5CE20 := "10002"; g_geometry := [2%nat] |};
    {| g_ZCTA5CE20 := "10009"; g_geometry := [9%nat] |} ].

Definition ex_call_plan : list CallRow :=
  [ {| c_zip := "10001"; c_calls := 120; c_hcpid := Some "h1" |};
    {| c_zip := "10002"; c_calls := 5; c_hcpid := Some "h1" |};
    {| c_zip := "10001"; c_calls := 150; c_hcpid := Some "h2" |};
    {| c_zip := "10003"; c_calls := 7; c_hcpid := Some "h3" |};
    {| c_zip := "10007"; c_calls := 9; c_hcpid := Some "h3" |} ].

Definition ex_hierarchy : list HierRow :=
  [ {| h_zip := "10001"; h_territory := Some "T1";
       h_district := Some "D1"; h_region := Some "R1" |};
    {| h_zip := "10002"; h_territory := Some "T2";
       h_district := Some "D1"; h_region := Some "R1" |};
    {| h_zip := "10009"; h_territory := Some "T3";
       h_district := Some "D1"; h_region := Some "R1" |};
    {| h_zip := "10008"; h_territory := Some "T3";
       h_district := Some "D2"; h_region := Some "R2" |} ].

Definition ex_state : option (@Loaded (list nat)) :=
  load_and_process_data (Some ex_shapefile) (Some ex_call_plan)
    (Some ex_hierarchy).

(** The state [ex_state], evaluated. *)
Definition ex_db : @Loaded (list nat) :=
  {| master_gdf :=
       [ {| ZCTA5CE20 := "10003"; geometry := [3%nat]; calls := 7;
            hcp_count := 1; territory := "Unassigned";
            district := "Unassigned"; region := "Unassigned" |};
         {| ZCTA5CE20 := "10001"; geometry := [1%nat]; calls := 270;
            hcp_count := 2; territory := "T1"; district := "D1";
            region := "R1" |};
         {| ZCTA5CE20 := "10002"; geometry := [2%nat]; calls := 5;
            hcp_count := 1; territory := "T2"; district := "D1";
            region := "R1" |} ];
     district_terr_counts := territory_counts h_district ex_hierarchy;
     region_terr_counts := territory_counts h_region ex_hierarchy |}.

(** A hierarchy file in which the literal name Unassigned is used for a
    district (and a region) of its own. *)
Definition ex_hierarchy_literal : list HierRow :=
  [ {| h_zip := "10001"; h_territory := Some "T1";
       h_district := Some "Unassigned"; h_region := Some "Unassigned" |};
    {| h_zip := "10002"; h_territory := Some "T2";
       h_district := Some "Unassigned"; h_region := Some "Unassigned" |} ].

(** The units that [ex_db] gives at territory level. *)
Definition ex_territory_units : list (@AggregatedUnit (list nat)) :=
  [ {| name := "T1"; u_calls := 270; u_hcp_count := 2; threshold := 250;
       u_geometry := [1%nat] |};
    {| name := "T2"; u_calls := 5; u_hcp_count := 1; threshold := 250;
       u_geometry := [2%nat] |};
    {| name := "Unassigned"; u_calls := 7; u_hcp_count := 1; threshold := 250;
       u_geometry := [3%nat] |} ].

(** ... at district level, *)
Definition ex_district_units : list (@AggregatedUnit (list nat)) :=
  [ {| name := "D1"; u_calls := 275; u_hcp_count := 3; threshold := 750;
       u_geometry := [1%nat; 2%nat] |};
    {| name := "Unassigned"; u_calls := 7; u_hcp_count := 1; threshold := 0;
       u_geometry := [3%nat] |} ].

(** ... at region level, *)
Definition ex_region_units : list (@AggregatedUnit (list nat)) :=
  [ {| name := "R1"; u_calls := 275; u_hcp_count := 3; threshold := 750;
       u_geometry := [1%nat; 2%nat] |};
    {| name := "Unassigned"; u_calls := 7; u_hcp_count := 1; threshold := 0;
       u_geometry := [3%nat] |} ].

(** ... and at zone level. *)
Definition ex_zone_units : list (@AggregatedUnit (list nat)) :=
  [ {| name := "10001"; u_calls := 270; u_hcp_count := 2; threshold := 0;
       u_geometry := [1%nat] |};
    {| name := "10002"; u_calls := 5; u_hcp_count := 1; threshold := 0;
       u_geometry := [2%nat] |};
    {| name := "10003"; u_calls := 7; u_hcp_count := 1; threshold := 0;
       u_geometry := [3%nat] |} ].

(** A hierarchy file that lists zone 10001 twice, under two territories. *)
Definition ex_hierarchy_twice : list HierRow :=
  [ {| h_zip := "10001"; h_territory := Some "T1";
       h_district := Some "D1"; h_region := Some "R1" |};
    {| h_zip := "10001"; h_territory := Some "T2";
       h_district := Some "D1"; h_region := Some "R1" |} ].




(** A union that raises when two of the geometries share a cell. *)
Definition overlap_union (gs : list (list nat)) : option (list nat) :=
  if decide (NoDup (concat gs)) then Some (concat gs) else None.

(** The call plan and the hierarchy of the small data set, rows reversed. *)
Definition ex_call_plan_rev : list CallRow := reverse ex_call_plan.
Definition ex_hierarchy_rev : list HierRow := reverse ex_hierarchy.

(** Closed decidable facts are settled by evaluation. *)
Ltac by_evaluation := apply (bool_decide_unpack _); vm_compute; exact I.

(** Membership in an explicit list is settled by finding the element. *)
Ltac pick_elem :=
  vm_compute; repeat first [apply list_elem_of_here | apply list_elem_of_further].

(** * Properties *)

(** ** Lowering *)







(** ** [unique], [sorted] and the group keys *)

Lemma elem_of_unique l x : x ∈ unique l ↔ x ∈ l.
Proof.
  induction l as [|y l IH]; simpl; [done|].
  rewrite !elem_of_cons, list_elem_of_filter, IH.
  destruct (decide (x = y)); tauto.
Qed.

Lemma NoDup_unique l : NoDup (unique l).
Proof.
  induction l as [|y l IH]; simpl; [constructor|].
  constructor; [|by apply NoDup_filter].
  rewrite list_elem_of_filter. intros [Hne _]. by apply Hne.
Qed.

Lemma sorted_Permutation l : sorted l ≡ₚ l.
Proof. apply merge_sort_Permutation. Qed.

Lemma elem_of_sorted l x : x ∈ sorted l ↔ x ∈ l.
Proof. by rewrite sorted_Permutation. Qed.

Lemma NoDup_sorted l : NoDup l → NoDup (sorted l).
Proof. by rewrite sorted_Permutation. Qed.

Lemma StronglySorted_sorted l : StronglySorted String.le (sorted l).
Proof. apply StronglySorted_merge_sort; apply _. Qed.

Lemma elem_of_group_keys keys k : k ∈ group_keys keys ↔ k ∈ keys.
Proof. unfold group_keys. by rewrite elem_of_sorted, elem_of_unique. Qed.

Lemma NoDup_group_keys keys : NoDup (group_keys keys).
Proof. apply NoDup_sorted, NoDup_unique. Qed.


(** ** Wrap-around at 64 bits *)

Lemma wrap_int64_range z : int64 (wrap_int64 z).
Proof.
  unfold int64, wrap_int64.
  pose proof (Z.mod_pos_bound (z + 2 ^ 63) (2 ^ 64)). lia.
Qed.

(** The wrapped value is the one [int64] that differs from [z] by a
    multiple of [2 ^ 64]. *)
Lemma wrap_int64_unique z r k : int64 r → r = z + k * 2 ^ 64 → wrap_int64 z = r.
Proof.
  unfold int64, wrap_int64. intros Hr ->.
  replace (z + 2 ^ 63) with ((z + k * 2 ^ 64 + 2 ^ 63) + (- k) * 2 ^ 64) by lia.
  rewrite Z.mod_add by lia. rewrite Z.mod_small by lia. lia.
Qed.

Lemma wrap_int64_small z : int64 z → wrap_int64 z = z.
Proof. intros Hz. apply (wrap_int64_unique z z 0); [done|lia]. Qed.

Lemma wrap_int64_multiple z : ∃ k, wrap_int64 z = z + k * 2 ^ 64.
Proof.
  exists (- ((z + 2 ^ 63) `div` 2 ^ 64)). unfold wrap_int64.
  pose proof (Z.div_mod (z + 2 ^ 63) (2 ^ 64)). lia.
Qed.

Lemma wrap_int64_add_r x y : wrap_int64 (x + wrap_int64 y) = wrap_int64 (x + y).
Proof.
  destruct (wrap_int64_multiple y) as [k ->].
  destruct (wrap_int64_multiple (x + y)) as [k' Hk'].
  apply (wrap_int64_unique _ _ (k' - k)); [apply wrap_int64_range|lia].
Qed.

Lemma wrap_int64_add_l x y : wrap_int64 (wrap_int64 x + y) = wrap_int64 (x + y).
Proof. by rewrite Z.add_comm, wrap_int64_add_r, Z.add_comm. Qed.

Lemma wrap_int64_idemp z : wrap_int64 (wrap_int64 z) = wrap_int64 z.
Proof. apply wrap_int64_small, wrap_int64_range. Qed.

(** ** Sums over groups *)

Lemma sum_exact_cons z l : sum_exact (z :: l) = z + sum_exact l.
Proof. reflexivity. Qed.

Lemma sum_exact_Permutation l1 l2 : l1 ≡ₚ l2 → sum_exact l1 = sum_exact l2.
Proof. induction 1; rewrite ?sum_exact_cons; lia. Qed.

(** Adding [a] to the total of the group [k0] adds [a] to the sum of the
    totals exactly when [k0] is one of the (distinct) keys. *)
Lemma sum_exact_bump (g : string → Z) k0 a ks :
  NoDup ks →
  sum_exact ((λ k, if decide (k0 = k) then a + g k else g k) <$> ks)
  = (if decide (k0 ∈ ks) then a else 0) + sum_exact (g <$> ks).
Proof.
  induction 1 as [|k ks Hk Hks IH].
  { destruct (decide (k0 ∈ [])) as [Hin|_]; [by apply elem_of_nil in Hin|done]. }
  rewrite !fmap_cons, !sum_exact_cons, IH.
  destruct (decide (k0 = k)) as [->|Hne].
  - destruct (decide (k ∈ ks)) as [Hin|_]; [done|].
    destruct (decide (k ∈ k :: ks)) as [_|Hout]; [lia|].
    destruct Hout. apply list_elem_of_here.
  - destruct (decide (k0 ∈ ks)) as [Hin|Hin];
      destruct (decide (k0 ∈ k :: ks)) as [Hin'|Hin']; try lia.
    + destruct Hin'. by apply list_elem_of_further.
    + apply elem_of_cons in Hin' as [?|?]; done.
Qed.

(** The exact group totals over distinct keys add up to the exact total
    of the rows whose key is among them. *)
Lemma sum_exact_groups_among {A} (key : A → string) (f : A → Z)
    (rows : list A) ks :
  NoDup ks →
  sum_exact ((λ k, sum_exact (f <$> filter (λ r, key r = k) rows)) <$> ks)
  = sum_exact (f <$> filter (λ r, key r ∈ ks) rows).
Proof.
  intros Hnd. induction rows as [|r rows IH].
  - clear. induction ks as [|k ks IHks]; [done|].
    by rewrite fmap_cons, sum_exact_cons, IHks.
  - pose proof (sum_exact_bump
                  (λ k, sum_exact (f <$> filter (λ r, key r = k) rows))
                  (key r) (f r) ks Hnd) as Hb.
    rewrite IH in Hb. rewrite (filter_cons (λ r, key r ∈ ks)).
    destruct (decide (key r ∈ ks)) as [Hin|Hin];
      [rewrite fmap_cons, sum_exact_cons|rewrite Z.add_0_l in Hb];
      rewrite <- Hb; f_equal; apply list_fmap_ext; intros _ k _;
      rewrite filter_cons; by case_decide.
Qed.

Lemma filter_all {A} (P : A → Prop) `{∀ x, Decision (P x)} (l : list A) :
  (∀ x, x ∈ l → P x) → filter P l = l.
Proof.
  induction l as [|x l IH]; intros HP; [done|].
  rewrite filter_cons_True by (apply HP; apply list_elem_of_here).
  f_equal. apply IH. intros y Hy. apply HP. by apply list_elem_of_further.
Qed.

Lemma sum_exact_groups {A} (key : A → string) (f : A → Z) (rows : list A) ks :
  NoDup ks →
  (∀ r, r ∈ rows → key r ∈ ks) →
  sum_exact ((λ k, sum_exact (f <$> filter (λ r, key r = k) rows)) <$> ks)
  = sum_exact (f <$> rows).
Proof.
  intros Hnd Hcov. rewrite sum_exact_groups_among by done.
  by rewrite filter_all.
Qed.

(** The [int64] sum is the exact sum, wrapped. *)
Lemma sumZ_cons z l : sumZ (z :: l) = wrap_int64 (z + sumZ l).
Proof. reflexivity. Qed.

Lemma sumZ_wrap l : sumZ l = wrap_int64 (sum_exact l).
Proof.
  induction l as [|z l IH]; [done|].
  by rewrite sumZ_cons, sum_exact_cons, IH, wrap_int64_add_r.
Qed.

Lemma sumZ_range l : int64 (sumZ l).
Proof. rewrite sumZ_wrap. apply wrap_int64_range. Qed.

Lemma sumZ_Permutation l1 l2 : l1 ≡ₚ l2 → sumZ l1 = sumZ l2.
Proof. intros Hp. by rewrite !sumZ_wrap, (sum_exact_Permutation _ _ Hp). Qed.

(** Wrapping the terms of a sum does not change the wrapped sum. *)
Lemma sumZ_wrapped_terms {A} (g : A → Z) (ks : list A) :
  sumZ ((λ k, wrap_int64 (g k)) <$> ks) = sumZ (g <$> ks).
Proof.
  induction ks as [|k ks IH]; [done|].
  by rewrite !fmap_cons, !sumZ_cons, IH, wrap_int64_add_l.
Qed.

(** Conservation under a [groupby(...).sum()] of an [int64] column: over
    distinct keys, the sum of the group totals is the sum of the rows
    whose key is among them. *)
Lemma sumZ_groups_among {A} (key : A → string) (f : A → Z) (rows : list A) ks :
  NoDup ks →
  sumZ ((λ k, sumZ (f <$> filter (λ r, key r = k) rows)) <$> ks)
  = sumZ (f <$> filter (λ r, key r ∈ ks) rows).
Proof.
  intros Hnd.
  rewrite (list_fmap_ext _ (λ k, wrap_int64 (sum_exact
             (f <$> filter (λ r, key r = k) rows))) ks)
    by (intros; apply sumZ_wrap).
  rewrite sumZ_wrapped_terms, !sumZ_wrap.
  by rewrite sum_exact_groups_among.
Qed.

Lemma sumZ_groups {A} (key : A → string) (f : A → Z) (rows : list A) ks :
  NoDup ks →
  (∀ r, r ∈ rows → key r ∈ ks) →
  sumZ ((λ k, sumZ (f <$> filter (λ r, key r = k) rows)) <$> ks)
  = sumZ (f <$> rows).
Proof.
  intros Hnd Hcov. rewrite sumZ_groups_among by done. by rewrite filter_all.
Qed.

(** *** Sums that do not overflow *)

Lemma sum_exact_abs_bound l :
  (Z.abs (sum_exact l) ≤ sum_exact (Z.abs <$> l))%Z.
Proof.
  induction l as [|z l IH]; [done|].
  rewrite fmap_cons, !sum_exact_cons. lia.
Qed.

Lemma sum_exact_abs_nonneg l : (0 ≤ sum_exact (Z.abs <$> l))%Z.
Proof.
  induction l as [|z l IH]; [done|].
  rewrite fmap_cons, sum_exact_cons. lia.
Qed.

Lemma sumZ_no_overflow l : no_overflow l → sumZ l = sum_exact l.
Proof.
  unfold no_overflow. intros Hno. rewrite sumZ_wrap.
  apply wrap_int64_small. unfold int64.
  pose proof (sum_exact_abs_bound l). lia.
Qed.

(** A part of a column that cannot overflow cannot overflow. *)
Lemma no_overflow_filter {A} (f : A → Z) (P : A → Prop)
    `{∀ x, Decision (P x)} (rows : list A) :
  no_overflow (f <$> rows) → no_overflow (f <$> filter P rows).
Proof.
  unfold no_overflow. intros Hno.
  assert (sum_exact (Z.abs <$> (f <$> filter P rows))
          ≤ sum_exact (Z.abs <$> (f <$> rows)))%Z; [|lia].
  clear Hno. induction rows as [|r rows IH]; [done|].
  rewrite filter_cons. pose proof (sum_exact_abs_nonneg (f <$> rows)).
  case_decide; rewrite ?fmap_cons, ?sum_exact_cons; lia.
Qed.

Section AppFacts.

Context {Geometry : Type} (union_all : list Geometry → option Geometry).

Implicit Types (db : @Loaded Geometry) (gdf : list (@ZoneRecord Geometry)).
Implicit Types (agg : list (@Dissolved Geometry)).
Implicit Types (units : list (@AggregatedUnit Geometry)).

(** ** The grouping column *)

Lemma dissolve_col_territory : dissolve_col "territory" = "territory".
Proof. reflexivity. Qed.

Lemma dissolve_col_district : dissolve_col "district" = "district".
Proof. reflexivity. Qed.

Lemma dissolve_col_region : dissolve_col "region" = "region".
Proof. reflexivity. Qed.

Lemma dissolve_col_other level :
  level ∉ ["territory"; "district"; "region"] → dissolve_col level = "ZCTA5CE20".
Proof. intros Hl. unfold dissolve_col. by rewrite decide_False. Qed.

(** Whatever the level, the grouping column exists in [master_gdf]. *)
Lemma column_dissolve_col level :
  ∃ by_col : @ZoneRecord Geometry → string,
    column (dissolve_col level) = Some by_col.
Proof.
  unfold dissolve_col. case_decide as Hl; [|by eexists].
  repeat (apply elem_of_cons in Hl as [->|Hl]; [by eexists|]).
  by apply elem_of_nil in Hl.
Qed.

(** ** [dissolve] *)

Lemma dissolve_Some col by_col gdf agg :
  column col = Some by_col →
  dissolve union_all col gdf = Some agg ↔
  Forall2 (dissolved_from union_all by_col gdf) (group_keys (by_col <$> gdf)) agg.
Proof.
  intros Hcol. unfold dissolve. rewrite Hcol. simpl. rewrite mapM_Some.
  assert (∀ k d,
    (g ← union_all (geometry <$> filter (λ r, by_col r = k) gdf);
     Some {| d_name := k; d_geometry := g;
             d_calls := sumZ (calls <$> filter (λ r, by_col r = k) gdf);
             d_hcp_count := sumZ (hcp_count <$> filter (λ r, by_col r = k) gdf) |})
    = Some d ↔ dissolved_from union_all by_col gdf k d) as Hpt.
  { intros k d. unfold dissolved_from. cbv zeta.
    destruct (union_all _) as [g|]; simpl; split.
    - by intros [= <-].
    - intros (Hn & [= Hg] & Hc & Hh). destruct d; simpl in *. by subst.
    - done.
    - by intros (_ & ? & _). }
  split; intros HF; (eapply Forall2_impl; [exact HF|]); intros k d; apply Hpt.
Qed.

(** The columns of a dissolved frame, read off its groups. *)
Lemma dissolved_names by_col gdf agg :
  Forall2 (dissolved_from union_all by_col gdf) (group_keys (by_col <$> gdf)) agg →
  d_name <$> agg = group_keys (by_col <$> gdf).
Proof.
  generalize (group_keys (by_col <$> gdf)). intros ks.
  induction 1 as [|k d ks agg Hd _ IH]; [done|].
  rewrite fmap_cons, IH. f_equal. apply Hd.
Qed.



Lemma dissolved_self by_col gdf ks agg :
  Forall2 (dissolved_from union_all by_col gdf) ks agg →
  Forall (λ d, dissolved_from union_all by_col gdf (d_name d) d) agg.
Proof.
  induction 1 as [|k d ks agg Hd _ IH]; constructor; [|done].
  destruct Hd as (Hn & Hg & Hc & Hh). unfold dissolved_from. cbv zeta.
  by rewrite Hn.
Qed.


(** ** [get_geospatial_data] *)

(** An [Ok] answer is the dissolved frame of the chosen column with the
    threshold column attached. *)
Lemma get_geospatial_data_Ok db level_arg units :
  get_geospatial_data union_all (Some db) level_arg = Ok units →
  ∃ by_col agg,
    column (dissolve_col (lower (default "Region" level_arg))) = Some by_col ∧
    Forall2 (dissolved_from union_all by_col (master_gdf db))
            (group_keys (by_col <$> master_gdf db)) agg ∧
    units = with_threshold db (lower (default "Region" level_arg)) <$> agg.
Proof.
  unfold get_geospatial_data. cbv zeta.
  destruct (column_dissolve_col (lower (default "Region" level_arg)))
    as [by_col Hcol].
  destruct (dissolve _ _ _) as [agg|] eqn:Hd; [|done].
  intros [= <-]. exists by_col, agg. split_and!; [done| |done].
  by apply (dissolve_Some _ _ _ _ Hcol).
Qed.

(** When no union raises, neither does the route. *)
Lemma get_geospatial_data_total db level_arg :
  (∀ gs, is_Some (union_all gs)) →
  ∃ units, get_geospatial_data union_all (Some db) level_arg = Ok units.
Proof.
  intros Htot. unfold get_geospatial_data. cbv zeta.
  destruct (column_dissolve_col (lower (default "Region" level_arg)))
    as [by_col Hcol].
  destruct (dissolve _ _ _) as [agg|] eqn:Hd; [by eexists|].
  exfalso. unfold dissolve in Hd. rewrite Hcol in Hd. simpl in Hd.
  apply mapM_None in Hd. apply Exists_exists in Hd as (k & _ & Hk).
  destruct (Htot (geometry <$> filter (λ r, by_col r = k) (master_gdf db)))
    as [g Hg].
  by rewrite Hg in Hk.
Qed.

(** The exact sum of the group totals of a column that cannot overflow. *)
Lemma sum_exact_group_totals {A} (key : A → string) (f : A → Z)
    (rows : list A) :
  no_overflow (f <$> rows) →
  sum_exact ((λ k, sumZ (f <$> filter (λ r, key r = k) rows))
             <$> group_keys (key <$> rows))
  = sum_exact (f <$> rows).
Proof.
  intros Hno.
  rewrite (list_fmap_ext _ (λ k, sum_exact (f <$> filter (λ r, key r = k) rows))
             (group_keys (key <$> rows)))
    by (intros; by apply sumZ_no_overflow, no_overflow_filter).
  apply sum_exact_groups; [apply NoDup_group_keys|].
  intros r Hr. by apply elem_of_group_keys, list_elem_of_fmap_2.
Qed.


(** The units of an [Ok] answer, group by group. *)
Lemma get_geospatial_data_units db level_arg units by_col :
  column (dissolve_col (lower (default "Region" level_arg))) = Some by_col →
  get_geospatial_data union_all (Some db) level_arg = Ok units →
  name <$> units = group_keys (by_col <$> master_gdf db) ∧
  Forall (unit_of_group union_all db (lower (default "Region" level_arg)) by_col)
         units.
Proof.
  intros Hcol (by_col' & agg & Hcol' & Hagg & ->)%get_geospatial_data_Ok.
  rewrite Hcol in Hcol'. injection Hcol' as <-. split.
  - rewrite <- list_fmap_compose.
    change (name ∘ with_threshold db _) with (@d_name Geometry).
    by apply dissolved_names.
  - apply Forall_fmap, Forall_forall. intros d Hd.
    apply dissolved_self in Hagg. rewrite Forall_forall in Hagg.
    destruct (Hagg d Hd) as (_ & Hg & Hc & Hh). by repeat split.
Qed.

(** The threshold attached to a unit is the row-wise rule applied to the
    lowered level and the unit's name. *)
Lemma unit_threshold db level_arg units u :
  get_geospatial_data union_all (Some db) level_arg = Ok units →
  u ∈ units →
  threshold u = threshold_of db (lower (default "Region" level_arg)) (name u).
Proof.
  intros Hok Hu.
  destruct (column_dissolve_col (lower (default "Region" level_arg)))
    as [by_col Hcol].
  destruct (get_geospatial_data_units _ _ _ _ Hcol Hok) as [_ HF].
  rewrite Forall_forall in HF. by destruct (HF u Hu) as (_ & _ & _ & ?).
Qed.


(** C6.  At territory level (the level argument lowers to [territory]),
    every returned group, whatever its name and so also a group named
    Unassigned, carries the threshold [TERRITORY_WORKLOAD_THRESHOLD],
    which is 250. *)
Theorem territory_threshold_constant db s units u :
  lower s = "territory" →
  get_geospatial_data union_all (Some db) (Some s) = Ok units →
  u ∈ units →
  threshold u = TERRITORY_WORKLOAD_THRESHOLD ∧ threshold u = 250.
Proof.
  intros Hs Hok Hu. rewrite (unit_threshold _ _ _ _ Hok Hu). simpl.
  rewrite Hs. done.
Qed.

(** C10.  A request without a [level] argument is answered as a
    region-level one: same answer as for [region], groups keyed by the
    [region] column, thresholds read from the region count table. *)
Theorem absent_level_is_region db :
  get_geospatial_data union_all (Some db) None
  = get_geospatial_data union_all (Some db) (Some "region") ∧
  ∀ units, get_geospatial_data union_all (Some db) None = Ok units →
    name <$> units = group_keys (region <$> master_gdf db) ∧
    Forall (λ u, unit_of_group union_all db "region" region u ∧
                 threshold u
                 = Z.of_nat (default 0%nat (region_terr_counts db !! name u))
                   * TERRITORY_WORKLOAD_THRESHOLD) units.
Proof.
  split; [done|]. intros units Hok.
  destruct (get_geospatial_data_units db None units region eq_refl Hok)
    as [Hnames HF].
  split; [done|]. eapply Forall_impl; [exact HF|]. intros u Hu.
  split; [done|]. by destruct Hu as (_ & _ & _ & ->).
Qed.


(** No row carries a key that is not in the key column. *)
Lemma filter_key_absent {A} (f : A → string) (l : list A) k :
  k ∉ f <$> l → filter (λ r', f r' = k) l = [].
Proof.
  induction l as [|a l IH]; [done|].
  rewrite fmap_cons, not_elem_of_cons. intros [Hk Hl].
  rewrite filter_cons_False by (intros Heq; by apply Hk). by apply IH.
Qed.

(** In a frame with distinct keys, the group of a row is that row alone. *)
Lemma filter_key_NoDup {A} (f : A → string) (l : list A) r :
  NoDup (f <$> l) → r ∈ l → filter (λ r', f r' = f r) l = [r].
Proof.
  induction l as [|a l IH]; intros Hnd Hr; [by apply elem_of_nil in Hr|].
  rewrite fmap_cons in Hnd. apply NoDup_cons in Hnd as [Ha Hnd].
  apply elem_of_cons in Hr as [->|Hr].
  - rewrite filter_cons_True by done. f_equal. by apply filter_key_absent.
  - rewrite filter_cons_False; [by apply IH|].
    intros Heq. apply Ha. rewrite Heq. by apply list_elem_of_fmap_2.
Qed.




(** ** The merges *)

Lemma zip_aggregations_zones call_plan_df :
  a_ZCTA5CE20 <$> zip_aggregations call_plan_df
  = group_keys (c_zip <$> call_plan_df).
Proof.
  unfold zip_aggregations. rewrite <- list_fmap_compose.
  rewrite <- (list_fmap_id (group_keys _)) at 2. by apply list_fmap_ext.
Qed.

(** A zone has a metrics entry exactly when the call plan has a row for it. *)
Lemma elem_of_zip_aggregations_zones call_plan_df z :
  z ∈ a_ZCTA5CE20 <$> zip_aggregations call_plan_df ↔ z ∈ c_zip <$> call_plan_df.
Proof. by rewrite zip_aggregations_zones, elem_of_group_keys. Qed.

(** The left merge keeps the zones of its left frame, all of them. *)
Lemma merge_left_zones aggs hierarchy_df z :
  z ∈ m_ZCTA5CE20 <$> merge_left aggs hierarchy_df ↔ z ∈ a_ZCTA5CE20 <$> aggs.
Proof.
  rewrite !list_elem_of_fmap. unfold merge_left. split.
  - intros (m & -> & (a & Hm & Ha)%list_elem_of_bind).
    exists a. split; [|done].
    destruct (filter _ hierarchy_df) as [|h hs].
    + by apply list_elem_of_singleton in Hm as ->.
    + by apply list_elem_of_fmap in Hm as (h' & -> & _).
  - intros (a & -> & Ha).
    destruct (filter (λ h, h_zip h = a_ZCTA5CE20 a) hierarchy_df)
      as [|h hs] eqn:Hf.
    + eexists. split; [|apply list_elem_of_bind; exists a; split; [|done]].
      2:{ rewrite Hf. apply list_elem_of_here. }
      done.
    + eexists. split; [|apply list_elem_of_bind; exists a; split; [|done]].
      2:{ rewrite Hf. rewrite fmap_cons. apply list_elem_of_here. }
      done.
Qed.

(** A merged row of a zone without a hierarchy row has null hierarchy cells. *)
Lemma merge_left_unmapped aggs hierarchy_df m :
  m ∈ merge_left aggs hierarchy_df →
  m_ZCTA5CE20 m ∉ h_zip <$> hierarchy_df →
  m_territory m = None ∧ m_district m = None ∧ m_region m = None.
Proof.
  unfold merge_left. intros (a & Hm & Ha)%list_elem_of_bind Hno.
  destruct (filter (λ h, h_zip h = a_ZCTA5CE20 a) hierarchy_df)
    as [|h hs] eqn:Hf.
  - by apply list_elem_of_singleton in Hm as ->.
  - exfalso. apply list_elem_of_fmap in Hm as (h' & -> & Hh'). simpl in Hno.
    rewrite <- Hf in Hh'. apply list_elem_of_filter in Hh' as [Hz Hh'].
    apply Hno. rewrite <- Hz. by apply list_elem_of_fmap_2.
Qed.

Lemma elem_of_merge_inner_fillna (zip_geometries : list (@GeomRow Geometry))
    merged_df (r : @ZoneRecord Geometry) :
  r ∈ merge_inner_fillna zip_geometries merged_df ↔
  ∃ g m, g ∈ zip_geometries ∧ m ∈ merged_df ∧
         m_ZCTA5CE20 m = g_ZCTA5CE20 g ∧
         r = {| ZCTA5CE20 := g_ZCTA5CE20 g; geometry := g_geometry g;
                calls := m_calls m; hcp_count := m_hcp_count m;
                territory := fillna (m_territory m);
                district := fillna (m_district m);
                region := fillna (m_region m) |}.
Proof.
  unfold merge_inner_fillna. rewrite list_elem_of_bind. split.
  - intros (g & (m & -> & [Hz Hm]%list_elem_of_filter)%list_elem_of_fmap & Hg).
    by exists g, m.
  - intros (g & m & Hg & Hm & Hz & ->). exists g. split; [|done].
    apply list_elem_of_fmap. exists m. split; [done|].
    by apply list_elem_of_filter.
Qed.

Lemma load_and_process_data_Some (shp : list (@GeomRow Geometry)) cp hier db :
  load_and_process_data (Some shp) (Some cp) (Some hier) = Some db →
  master_gdf db
  = merge_inner_fillna shp (merge_left (zip_aggregations cp) hier) ∧
  district_terr_counts db = territory_counts h_district hier ∧
  region_terr_counts db = territory_counts h_region hier.
Proof. by intros [= <-]. Qed.

(** C3.  A zone has a row in the master frame exactly when it has a
    metrics entry and a shape.  A retained zone that has no row in the
    hierarchy is kept all the same, and each of its [territory],
    [district] and [region] cells reads Unassigned. *)
Theorem master_zones (shp : list (@GeomRow Geometry)) cp hier db :
  load_and_process_data (Some shp) (Some cp) (Some hier) = Some db →
  (∀ z, z ∈ ZCTA5CE20 <$> master_gdf db ↔
        z ∈ a_ZCTA5CE20 <$> zip_aggregations cp ∧ z ∈ g_ZCTA5CE20 <$> shp) ∧
  (∀ r, r ∈ master_gdf db → ZCTA5CE20 r ∉ h_zip <$> hier →
        territory r = "Unassigned" ∧ district r = "Unassigned" ∧
        region r = "Unassigned").
Proof.
  intros (Hm & _ & _)%load_and_process_data_Some. rewrite Hm. split.
  - intros z. rewrite <- (merge_left_zones _ hier).
    rewrite !list_elem_of_fmap. split.
    + intros (r & -> & (g & m & Hg & Hin & Hz & ->)%elem_of_merge_inner_fillna).
      simpl. split; [by exists m|by exists g].
    + intros [(m & -> & Hin) (g & Hz & Hg)].
      eexists. split; [|apply elem_of_merge_inner_fillna; by exists g, m].
      done.
  - intros r (g & m & Hg & Hin & Hz & ->)%elem_of_merge_inner_fillna. simpl.
    rewrite <- Hz. intros Hno.
    by destruct (merge_left_unmapped _ _ _ Hin Hno) as (-> & -> & ->).
Qed.

(** ** The count tables *)

Lemma filter_key_None (key : HierRow → option string) hierarchy_df nm :
  filter (λ h, key h = Some nm) hierarchy_df = [] ↔ Some nm ∉ key <$> hierarchy_df.
Proof.
  induction hierarchy_df as [|h l IH]; [split; [intros _ []%elem_of_nil|done]|].
  rewrite fmap_cons, not_elem_of_cons, filter_cons.
  case_decide as Hk; split.
  - done.
  - intros [Hne _]. by destruct Hne.
  - intros Hf. split; [congruence|by apply IH].
  - intros [_ Hl]. by apply IH.
Qed.



Lemma lookup_list_to_map_keys {V} (v : string → V) (ks : list string) k :
  NoDup ks →
  (list_to_map ((λ k, (k, v k)) <$> ks) : gmap string V) !! k
  = if decide (k ∈ ks) then Some (v k) else None.
Proof.
  intros Hnd. case_decide as Hk.
  - apply elem_of_list_to_map.
    + rewrite <- list_fmap_compose.
      rewrite (list_fmap_ext _ id ks) by done. by rewrite list_fmap_id.
    + apply list_elem_of_fmap. by exists k.
  - apply not_elem_of_list_to_map. rewrite <- list_fmap_compose.
    rewrite (list_fmap_ext _ id ks) by done. by rewrite list_fmap_id.
Qed.

Lemma elem_of_dropna {A} (col : list (option A)) x :
  x ∈ dropna col ↔ Some x ∈ col.
Proof.
  unfold dropna. rewrite list_elem_of_omap. split.
  - intros (o & Ho & Heq). simpl in Heq. by subst.
  - intros Hx. by exists (Some x).
Qed.

(** [nunique] counts the set of non-null values. *)
Lemma nunique_size col :
  nunique col = size (list_to_set (C := gset string) (dropna col)).
Proof.
  unfold nunique. rewrite <- (size_list_to_set (C := gset string) (unique _))
    by apply NoDup_unique.
  f_equal. apply set_eq. intros x.
  by rewrite !elem_of_list_to_set, elem_of_unique.
Qed.

(** A count table holds, for each name on some raw row, the number of
    distinct territories on the raw rows of that name, and nothing else. *)
Lemma territory_counts_lookup key hierarchy_df nm :
  territory_counts key hierarchy_df !! nm
  = if decide (Some nm ∈ key <$> hierarchy_df)
    then Some (distinct_territory_count key hierarchy_df nm) else None.
Proof.
  unfold territory_counts.
  rewrite (lookup_list_to_map_keys
             (λ k, nunique (h_territory <$> filter (λ h, key h = Some k)
                                                   hierarchy_df)))
    by apply NoDup_group_keys.
  destruct (decide (nm ∈ group_keys _)) as [Hin|Hin];
    rewrite elem_of_group_keys, elem_of_dropna in Hin.
  - rewrite decide_True by done. by rewrite nunique_size.
  - by rewrite decide_False.
Qed.

(** No territory is counted under a name that is on no raw row. *)
Lemma distinct_territory_count_absent key hierarchy_df nm :
  Some nm ∉ key <$> hierarchy_df →
  distinct_territory_count key hierarchy_df nm = 0%nat.
Proof.
  intros Hno. unfold distinct_territory_count.
  rewrite (proj2 (filter_key_None key hierarchy_df nm) Hno). done.
Qed.

(** C4.  The two count tables are made from the raw hierarchy rows alone:
    loading the same hierarchy with any other shapes and any other call
    plan gives the same tables, and each entry is the distinct-territory
    count over all raw rows of that name, whether or not their zones
    survive the merges. *)
Theorem count_tables_from_raw_hierarchy
    (shp shp' : list (@GeomRow Geometry)) cp cp' hier db db' :
  load_and_process_data (Some shp) (Some cp) (Some hier) = Some db →
  load_and_process_data (Some shp') (Some cp') (Some hier) = Some db' →
  district_terr_counts db = district_terr_counts db' ∧
  region_terr_counts db = region_terr_counts db' ∧
  (∀ nm, district_terr_counts db !! nm
         = if decide (Some nm ∈ h_district <$> hier)
           then Some (distinct_territory_count h_district hier nm) else None) ∧
  (∀ nm, region_terr_counts db !! nm
         = if decide (Some nm ∈ h_region <$> hier)
           then Some (distinct_territory_count h_region hier nm) else None).
Proof.
  intros (_ & Hd & Hr)%load_and_process_data_Some
         (_ & Hd' & Hr')%load_and_process_data_Some.
  rewrite Hd, Hr, Hd', Hr'.
  split_and!; [done|done|..]; intros nm; apply territory_counts_lookup.
Qed.

(** The district rule of the threshold column, on the raw hierarchy. *)
Lemma threshold_of_district (shp : list (@GeomRow Geometry)) cp hier db D :
  load_and_process_data (Some shp) (Some cp) (Some hier) = Some db →
  threshold_of db "district" D
  = TERRITORY_WORKLOAD_THRESHOLD
    * Z.of_nat (distinct_territory_count h_district hier D).
Proof.
  intros (_ & Hd & _)%load_and_process_data_Some.
  unfold threshold_of. simpl. rewrite Hd, territory_counts_lookup.
  case_decide as Hin; simpl; [lia|].
  by rewrite distinct_territory_count_absent.
Qed.

(** C5.  The district-level threshold of a name [D] is
    [TERRITORY_WORKLOAD_THRESHOLD] (250) times the number of distinct
    territories on the raw hierarchy rows of district [D]; it is 0 when
    [D] is not a key of the district count table; and this is the
    threshold that a district-level request attaches to each unit. *)
Theorem district_threshold (shp : list (@GeomRow Geometry)) cp hier db D :
  load_and_process_data (Some shp) (Some cp) (Some hier) = Some db →
  threshold_of db "district" D
  = 250 * Z.of_nat (distinct_territory_count h_district hier D) ∧
  (district_terr_counts db !! D = None → threshold_of db "district" D = 0) ∧
  (∀ s units u,
     lower s = "district" →
     get_geospatial_data union_all (Some db) (Some s) = Ok units →
     u ∈ units →
     threshold u
     = 250 * Z.of_nat (distinct_territory_count h_district hier (name u))).
Proof.
  intros Hload. split_and!.
  - by apply (threshold_of_district shp cp).
  - intros Hno. unfold threshold_of. simpl. by rewrite Hno.
  - intros s units u Hs Hok Hu. rewrite (unit_threshold _ _ _ _ Hok Hu).
    simpl. rewrite Hs. by apply (threshold_of_district shp cp).
Qed.

(** C1 (as the code has it).  The threshold of a group named Unassigned
    is 0 at zone level and at any unrecognised level; it is 0 at district
    level when no raw hierarchy row has the literal district name
    Unassigned, and at region level when none has the literal region name
    Unassigned; at territory level it is [TERRITORY_WORKLOAD_THRESHOLD],
    as for every territory group. *)
Theorem unassigned_threshold
    (shp : list (@GeomRow Geometry)) cp hier db level_arg units u :
  let level := lower (default "Region" level_arg) in
  load_and_process_data (Some shp) (Some cp) (Some hier) = Some db →
  (level = "district" → ∀ h, h ∈ hier → h_district h ≠ Some "Unassigned") →
  (level = "region" → ∀ h, h ∈ hier → h_region h ≠ Some "Unassigned") →
  get_geospatial_data union_all (Some db) level_arg = Ok units →
  u ∈ units →
  name u = "Unassigned" →
  threshold u
  = if decide (level = "territory") then TERRITORY_WORKLOAD_THRESHOLD else 0.
Proof.
  intros level (_ & Hd & Hr)%load_and_process_data_Some Hdl Hrl Hok Hu Hname.
  rewrite (unit_threshold _ _ _ _ Hok Hu), Hname. fold level.
  unfold threshold_of. rewrite Hd, Hr, !territory_counts_lookup.
  destruct (decide (level = "territory")) as [|_]; [done|].
  destruct (decide (level = "district")) as [Hl|_].
  { rewrite decide_False; [done|].
    intros (h & Heq & Hh)%list_elem_of_fmap. by apply (Hdl Hl h Hh). }
  destruct (decide (level = "region")) as [Hl|_]; [|done].
  rewrite decide_False; [done|].
  intros (h & Heq & Hh)%list_elem_of_fmap. by apply (Hrl Hl h Hh).
Qed.

(** ** [get_all_names] *)

Lemma names_of_sorted_unique (field : @ZoneRecord Geometry → string) gdf :
  names_of field gdf (sorted (unique (field <$> gdf))).
Proof.
  split_and!.
  - apply StronglySorted_sorted.
  - apply NoDup_sorted, NoDup_unique.
  - intros x. by rewrite elem_of_sorted, elem_of_unique.
Qed.

(** On a master frame of string labels [get_all_names] answers a
    dictionary with exactly the four keys [region], [district],
    [territory] and [zip]; under each key is the list, ascending and
    without repetition, of the values of that column on the rows of the
    master frame (the zone ids under [zip]), so that a label carried only
    by dropped zones is absent. *)
Lemma names_by_level db :
  ∃ m lr ld lt lz,
    get_all_names (Some db) = Ok m ∧
    dom m = {[ "region"; "district"; "territory"; "zip" ]} ∧
    m !! "region" = Some lr ∧ names_of region (master_gdf db) lr ∧
    m !! "district" = Some ld ∧ names_of district (master_gdf db) ld ∧
    m !! "territory" = Some lt ∧ names_of territory (master_gdf db) lt ∧
    m !! "zip" = Some lz ∧ names_of ZCTA5CE20 (master_gdf db) lz.
Proof.
  do 5 eexists. split; [reflexivity|]. simpl.
  split_and!; try apply names_of_sorted_unique.
  - rewrite !dom_insert_L, dom_empty_L. set_solver.
  - by rewrite lookup_insert_eq.
  - rewrite lookup_insert_ne by done. by rewrite lookup_insert_eq.
  - rewrite !lookup_insert_ne by done. by rewrite lookup_insert_eq.
  - rewrite !lookup_insert_ne by done. by rewrite lookup_insert_eq.
Qed.

End AppFacts.

Example ex_state_db : ex_state = Some ex_db.
Proof. reflexivity. Qed.

(** ** The routes on the small data set *)

Example ex_territory_level :
  get_geospatial_data cells_union ex_state (Some "TERRITORY")
  = Ok ex_territory_units.
Proof. reflexivity. Qed.

Example ex_district_level :
  get_geospatial_data cells_union ex_state (Some "District")
  = Ok ex_district_units.
Proof. reflexivity. Qed.

Example ex_region_level :
  get_geospatial_data cells_union ex_state (Some "region") = Ok ex_region_units.
Proof. reflexivity. Qed.

Example ex_zone_level :
  get_geospatial_data cells_union ex_state (Some "zone") = Ok ex_zone_units.
Proof. reflexivity. Qed.

(** Without loaded data both routes answer with an error. *)
Example ex_not_loaded :
  get_geospatial_data cells_union None (Some "zone")
  = Error500 "Data could not be loaded." ∧
  @get_all_names (list nat) None = Error500 "Data not loaded".
Proof. done. Qed.

(** ** The theorems at the small data set *)

(** C1, as stated, fails at territory level: the group Unassigned of
    [ex_state] gets the threshold 250, not 0. *)
Lemma unassigned_territory_counterexample :
  ∃ units u,
    get_geospatial_data cells_union ex_state (Some "territory") = Ok units ∧
    u ∈ units ∧ name u = "Unassigned" ∧ threshold u = 250 ∧ threshold u ≠ 0.
Proof.
  exists ex_territory_units,
    {| name := "Unassigned"; u_calls := 7; u_hcp_count := 1; threshold := 250;
       u_geometry := [3%nat] |}.
  split_and!; [reflexivity| |reflexivity|reflexivity|discriminate].
  unfold ex_territory_units. do 2 apply list_elem_of_further.
  apply list_elem_of_here.
Qed.

(** With a hierarchy file that uses the literal name Unassigned for a
    district, the district count table has that key, and the district
    threshold of Unassigned is not 0 either. *)
Example unassigned_literal_district :
  ∃ db, load_and_process_data (Some ex_shapefile) (Some ex_call_plan)
          (Some ex_hierarchy_literal) = Some db ∧
        threshold_of db "district" "Unassigned" = 500.
Proof. eexists. split; reflexivity. Qed.

Lemma unassigned_threshold_witness :
  load_and_process_data (Some ex_shapefile) (Some ex_call_plan)
    (Some ex_hierarchy) = Some ex_db ∧
  (lower "District" = "district" →
   ∀ h, h ∈ ex_hierarchy → h_district h ≠ Some "Unassigned") ∧
  (lower "District" = "region" →
   ∀ h, h ∈ ex_hierarchy → h_region h ≠ Some "Unassigned") ∧
  get_geospatial_data cells_union (Some ex_db) (Some "District")
  = Ok ex_district_units ∧
  threshold {| name := "Unassigned"; u_calls := 7; u_hcp_count := 1;
               threshold := 0; u_geometry := [3%nat] |} = 0.
Proof.
  assert (lower "District" = "district" →
          ∀ h, h ∈ ex_hierarchy → h_district h ≠ Some "Unassigned") as Hd.
  { intros _ h Hh. unfold ex_hierarchy in Hh.
    repeat (apply elem_of_cons in Hh as [->|Hh]; [discriminate|]).
    by apply elem_of_nil in Hh. }
  assert (lower "District" = "region" →
          ∀ h, h ∈ ex_hierarchy → h_region h ≠ Some "Unassigned") as Hr
    by discriminate.
  split_and!; [reflexivity|exact Hd|exact Hr|reflexivity|].
  apply (unassigned_threshold cells_union ex_shapefile ex_call_plan ex_hierarchy
           ex_db (Some "District") ex_district_units);
    [reflexivity|exact Hd|exact Hr|reflexivity| |reflexivity].
  unfold ex_district_units. apply list_elem_of_further, list_elem_of_here.
Defined.


Lemma master_zones_witness :
  load_and_process_data (Some ex_shapefile) (Some ex_call_plan)
    (Some ex_hierarchy) = Some ex_db ∧
  ("10003" ∈ ZCTA5CE20 <$> master_gdf ex_db ↔
   "10003" ∈ a_ZCTA5CE20 <$> zip_aggregations ex_call_plan ∧
   "10003" ∈ g_ZCTA5CE20 <$> ex_shapefile).
Proof.
  split; [reflexivity|].
  apply (master_zones ex_shapefile ex_call_plan ex_hierarchy ex_db eq_refl).
Defined.

Lemma count_tables_from_raw_hierarchy_witness :
  load_and_process_data (Some ex_shapefile) (Some ex_call_plan)
    (Some ex_hierarchy) = Some ex_db ∧
  load_and_process_data (Some (@nil (@GeomRow (list nat)))) (Some [])
    (Some ex_hierarchy)
  = Some {| master_gdf := [];
            district_terr_counts := territory_counts h_district ex_hierarchy;
            region_terr_counts := territory_counts h_region ex_hierarchy |} ∧
  district_terr_counts ex_db !! "D1" = Some 3%nat.
Proof.
  split_and!; [reflexivity|reflexivity|].
  destruct (count_tables_from_raw_hierarchy ex_shapefile [] ex_call_plan []
              ex_hierarchy ex_db _ eq_refl eq_refl) as (_ & _ & Hd & _).
  rewrite Hd. reflexivity.
Defined.

Lemma district_threshold_witness :
  load_and_process_data (Some ex_shapefile) (Some ex_call_plan)
    (Some ex_hierarchy) = Some ex_db ∧
  threshold_of ex_db "district" "D1" = 750.
Proof.
  split; [reflexivity|].
  destruct (district_threshold cells_union ex_shapefile ex_call_plan
              ex_hierarchy ex_db "D1" eq_refl) as (-> & _).
  reflexivity.
Defined.

Lemma territory_threshold_constant_witness :
  lower "Territory" = "territory" ∧
  get_geospatial_data cells_union (Some ex_db) (Some "Territory")
  = Ok ex_territory_units ∧
  threshold {| name := "Unassigned"; u_calls := 7; u_hcp_count := 1;
               threshold := 250; u_geometry := [3%nat] |} = 250.
Proof.
  split_and!; [reflexivity|reflexivity|].
  apply (territory_threshold_constant cells_union ex_db "Territory"
           ex_territory_units); [reflexivity|reflexivity|].
  unfold ex_territory_units. do 2 apply list_elem_of_further.
  apply list_elem_of_here.
Defined.





(** The labels of the dropped zone 10009 (territory T3) are not listed. *)
Example names_skip_dropped_zones :
  ∃ m, get_all_names ex_state = Ok m ∧
       m !! "territory" = Some ["T1"; "T2"; "Unassigned"] ∧
       m !! "region" = Some ["R1"; "Unassigned"].
Proof. eexists. split_and!; reflexivity. Qed.

Lemma absent_level_is_region_witness :
  get_geospatial_data cells_union (Some ex_db) None = Ok ex_region_units ∧
  name <$> ex_region_units = group_keys (region <$> master_gdf ex_db) ∧
  get_geospatial_data cells_union (Some ex_db) None
  ≠ get_geospatial_data cells_union (Some ex_db) (Some "zone").
Proof.
  split_and!; [reflexivity| |discriminate].
  destruct (absent_level_is_region cells_union ex_db) as [_ Hunits].
  by destruct (Hunits ex_region_units eq_refl) as [? _].
Defined.

(** * Further properties of the code *)

(** ** The per-zone aggregation of the call plan *)

Lemma dropna_cons_Some {A} (a : A) (col : list (option A)) :
  dropna (Some a :: col) = a :: dropna col.
Proof. reflexivity. Qed.

Lemma dropna_cons_None {A} (col : list (option A)) :
  dropna (None :: col) = dropna col.
Proof. reflexivity. Qed.

(** The number of non-null cells, as a sum of ones. *)
Lemma length_dropna_sum {A B} (g : A → option B) (l : list A) :
  Z.of_nat (length (dropna (g <$> l)))
  = sum_exact ((λ r, if g r is Some _ then 1 else 0) <$> l).
Proof.
  induction l as [|r l IH]; [done|].
  rewrite !fmap_cons, sum_exact_cons, <- IH.
  destruct (g r) as [b|].
  - rewrite dropna_cons_Some. simpl length. lia.
  - rewrite dropna_cons_None. lia.
Qed.

Lemma length_dropna_le {A} (col : list (option A)) :
  (length (dropna col) ≤ length col)%nat.
Proof.
  induction col as [|[a|] col IH]; [done|..].
  - rewrite dropna_cons_Some. simpl. lia.
  - rewrite dropna_cons_None. simpl. lia.
Qed.


(** X1.  [zip_aggregations] has one row per zone of the call plan: its
    zone ids are ascending, without repetition, and are exactly the [zip]
    values of the call plan (so an empty call plan gives no row). *)
Theorem zip_aggregations_one_row_per_zone call_plan_df :
  StronglySorted String.le (a_ZCTA5CE20 <$> zip_aggregations call_plan_df) ∧
  NoDup (a_ZCTA5CE20 <$> zip_aggregations call_plan_df) ∧
  ∀ z, z ∈ a_ZCTA5CE20 <$> zip_aggregations call_plan_df ↔
       z ∈ c_zip <$> call_plan_df.
Proof.
  rewrite zip_aggregations_zones. split_and!.
  - apply StronglySorted_sorted.
  - apply NoDup_group_keys.
  - intros z. apply elem_of_group_keys.
Qed.


(** The exact sum of the exact group totals. *)
Lemma sum_exact_group_keys {A} (key : A → string) (f : A → Z) (rows : list A) :
  sum_exact ((λ k, sum_exact (f <$> filter (λ r, key r = k) rows))
             <$> group_keys (key <$> rows))
  = sum_exact (f <$> rows).
Proof.
  apply sum_exact_groups; [apply NoDup_group_keys|].
  intros r Hr. by apply elem_of_group_keys, list_elem_of_fmap_2.
Qed.

(** X3.  The per-zone aggregation loses nothing of the call plan.  The
    [calls] column being an [int64] column, the zone totals and the
    [calls] cells have the same sum in 64-bit wrap-around arithmetic, and
    the same exact sum when the column cannot overflow; the zone counts
    add up to the number of non-null [hcpid] cells. *)
Theorem zip_aggregations_conserve call_plan_df :
  sumZ (a_calls <$> zip_aggregations call_plan_df)
  = sumZ (c_calls <$> call_plan_df) ∧
  (no_overflow (c_calls <$> call_plan_df) →
   sum_exact (a_calls <$> zip_aggregations call_plan_df)
   = sum_exact (c_calls <$> call_plan_df)) ∧
  sum_exact (a_hcp_count <$> zip_aggregations call_plan_df)
  = Z.of_nat (length (dropna (c_hcpid <$> call_plan_df))).
Proof.
  unfold zip_aggregations. rewrite <- !list_fmap_compose. split_and!.
  - apply (sumZ_groups c_zip c_calls); [apply NoDup_group_keys|].
    intros r Hr. by apply elem_of_group_keys, list_elem_of_fmap_2.
  - apply (sum_exact_group_totals c_zip c_calls).
  - rewrite length_dropna_sum, <- (sum_exact_group_keys c_zip _ call_plan_df).
    f_equal. apply list_fmap_ext. intros _ z _. simpl.
    apply length_dropna_sum.
Qed.

Lemma filter_key_nil {A} (f : A → string) (l : list A) k :
  filter (λ r, f r = k) l = [] ↔ k ∉ f <$> l.
Proof.
  split; [|apply filter_key_absent].
  intros Hnil (r & -> & Hr)%list_elem_of_fmap.
  assert (r ∈ filter (λ r', f r' = f r) l) as Hin
    by (by apply list_elem_of_filter).
  rewrite Hnil in Hin. by apply elem_of_nil in Hin.
Qed.

Lemma elem_of_merge_left aggs hierarchy_df m :
  m ∈ merge_left aggs hierarchy_df ↔
  ∃ a, a ∈ aggs ∧ m_ZCTA5CE20 m = a_ZCTA5CE20 a ∧
       m_calls m = a_calls a ∧ m_hcp_count m = a_hcp_count a ∧
       (((a_ZCTA5CE20 a ∉ h_zip <$> hierarchy_df) ∧
         m_territory m = None ∧ m_district m = None ∧ m_region m = None) ∨
        (∃ h, h ∈ hierarchy_df ∧ h_zip h = a_ZCTA5CE20 a ∧
              m_territory m = h_territory h ∧ m_district m = h_district h ∧
              m_region m = h_region h)).
Proof.
  unfold merge_left. rewrite list_elem_of_bind.
  split; intros (a & Ha1 & Ha2); exists a.
  - split; [done|].
    destruct (filter (λ h, h_zip h = a_ZCTA5CE20 a) hierarchy_df)
      as [|h0 hs] eqn:Hf.
    + apply list_elem_of_singleton in Ha1 as ->. simpl.
      split_and!; [done..|]. left. by apply filter_key_nil in Hf.
    + apply list_elem_of_fmap in Ha1 as (h & -> & Hh). simpl.
      split_and!; [done..|]. right. exists h.
      rewrite <- Hf in Hh. apply list_elem_of_filter in Hh as [? ?]. done.
  - destruct Ha2 as (Hz & Hc & Hn & Hcase). split; [|done].
    destruct m as [mz mc mh mt md mr]. simpl in *. subst mz mc mh.
    destruct Hcase as [(Hno & -> & -> & ->)|(h & Hh & Hzip & -> & -> & ->)].
    + apply filter_key_nil in Hno. rewrite Hno. apply list_elem_of_here.
    + assert (h ∈ filter (λ h, h_zip h = a_ZCTA5CE20 a) hierarchy_df) as Hin
        by (by apply list_elem_of_filter).
      destruct (filter _ hierarchy_df) as [|h0 hs];
        [by apply elem_of_nil in Hin|].
      apply elem_of_cons in Hin as [->|Hin]; [apply list_elem_of_here|].
      apply list_elem_of_further.
      by apply (list_elem_of_fmap_2' _ hs h).
Qed.

Lemma filter_none {A} (P : A → Prop) `{∀ x, Decision (P x)} (l : list A) :
  (∀ x, x ∈ l → ¬ P x) → filter P l = [].
Proof.
  induction l as [|x l IH]; intros HP; [done|].
  rewrite filter_cons_False by (apply HP; apply list_elem_of_here).
  apply IH. intros y Hy. apply HP. by apply list_elem_of_further.
Qed.

(** Counting the rows of key [z] in a keyed one-to-many expansion: every
    row of key [z] on the left contributes its [n] expansions. *)
Lemma length_filter_bind_keyed {A B} (kA : A → string) (kB : B → string)
    (f : A → list B) (l : list A) z n :
  (∀ a b, b ∈ f a → kB b = kA a) →
  (∀ a, kA a = z → length (f a) = n) →
  length (filter (λ b, kB b = z) (l ≫= f))
  = (length (filter (λ a, kA a = z) l) * n)%nat.
Proof.
  intros Hkey Hlen. induction l as [|a l IH]; [done|].
  rewrite bind_cons, filter_app, length_app, IH, (filter_cons _ a).
  destruct (decide (kA a = z)) as [Hz|Hz].
  - rewrite filter_all by (intros b Hb; by rewrite (Hkey a b Hb)).
    rewrite (Hlen a Hz). simpl. lia.
  - rewrite filter_none by (intros b Hb; by rewrite (Hkey a b Hb)).
    simpl. lia.
Qed.

(** A key occurs at most once in a column without repetition. *)
Lemma length_filter_key_NoDup {A} (f : A → string) (l : list A) z :
  NoDup (f <$> l) →
  length (filter (λ r, f r = z) l)
  = if decide (z ∈ f <$> l) then 1%nat else 0%nat.
Proof.
  intros Hnd. case_decide as Hz.
  - apply list_elem_of_fmap in Hz as (r & -> & Hr).
    by rewrite (filter_key_NoDup f l r Hnd Hr).
  - by rewrite filter_key_absent.
Qed.

(** A column in which every key occurs at most once has no repetition. *)
Lemma NoDup_fmap_of_count {A} (f : A → string) (l : list A) :
  (∀ z, (length (filter (λ r, f r = z) l) ≤ 1)%nat) → NoDup (f <$> l).
Proof.
  induction l as [|x l IH]; intros Hc; [constructor|].
  rewrite fmap_cons. constructor.
  - intros Hin. specialize (Hc (f x)).
    rewrite filter_cons_True in Hc by done. simpl in Hc.
    apply list_elem_of_fmap in Hin as (y & Hy & Hyl).
    assert (y ∈ filter (λ r, f r = f x) l) as Hf
      by (by apply list_elem_of_filter).
    destruct (filter _ l); [by apply elem_of_nil in Hf|simpl in Hc; lia].
  - apply IH. intros z. specialize (Hc z). rewrite filter_cons in Hc.
    case_decide; simpl in Hc; lia.
Qed.

Lemma length_filter_merge_left aggs hierarchy_df z :
  length (filter (λ m, m_ZCTA5CE20 m = z) (merge_left aggs hierarchy_df))
  = (length (filter (λ a, a_ZCTA5CE20 a = z) aggs)
     * Nat.max 1 (length (filter (λ h, h_zip h = z) hierarchy_df)))%nat.
Proof.
  unfold merge_left. apply (length_filter_bind_keyed a_ZCTA5CE20).
  - intros a m. destruct (filter _ hierarchy_df) as [|h0 hs].
    + by intros ->%list_elem_of_singleton.
    + by intros (h & -> & _)%list_elem_of_fmap.
  - intros a ->. destruct (filter _ hierarchy_df) as [|h0 hs]; [done|].
    rewrite length_fmap. simpl. lia.
Qed.

Section MasterFacts.

Context {Geometry : Type}.

Implicit Types (db : @Loaded Geometry) (shp : list (@GeomRow Geometry)).
Implicit Types (r : @ZoneRecord Geometry).

(** The rows that the two merges produce, traced to their sources. *)
Lemma elem_of_master_rows shp cp hier r :
  r ∈ merge_inner_fillna shp (merge_left (zip_aggregations cp) hier) ↔
  ∃ g a, g ∈ shp ∧ a ∈ zip_aggregations cp ∧
    g_ZCTA5CE20 g = a_ZCTA5CE20 a ∧
    ZCTA5CE20 r = g_ZCTA5CE20 g ∧ geometry r = g_geometry g ∧
    calls r = a_calls a ∧ hcp_count r = a_hcp_count a ∧
    (((ZCTA5CE20 r ∉ h_zip <$> hier) ∧ territory r = "Unassigned" ∧
      district r = "Unassigned" ∧ region r = "Unassigned") ∨
     (∃ h, h ∈ hier ∧ h_zip h = ZCTA5CE20 r ∧
           territory r = fillna (h_territory h) ∧
           district r = fillna (h_district h) ∧
           region r = fillna (h_region h))).
Proof.
  rewrite elem_of_merge_inner_fillna. split.
  - intros (g & m & Hg & Hm & Hz & ->).
    apply elem_of_merge_left in Hm as (a & Ha & Hza & Hc & Hn & Hcase).
    exists g, a. simpl. split_and!; try done; [congruence|].
    rewrite <- Hz, Hza.
    destruct Hcase as [(Hno & -> & -> & ->)|(h & Hh & Hzip & -> & -> & ->)].
    + by left.
    + right. by exists h.
  - intros (g & a & Hg & Ha & Hga & Hz & Hgeo & Hc & Hn & Hcase).
    destruct r as [rz rg rc rh rt rd rr]. simpl in *. subst rz rg rc rh.
    destruct Hcase as [(Hno & -> & -> & ->)|(h & Hh & Hzip & -> & -> & ->)].
    + exists g, {| m_ZCTA5CE20 := a_ZCTA5CE20 a; m_calls := a_calls a;
                   m_hcp_count := a_hcp_count a; m_territory := None;
                   m_district := None; m_region := None |}.
      split_and!; [done| |done|done].
      apply elem_of_merge_left. exists a. simpl. split_and!; [done..|].
      left. by rewrite <- Hga.
    + exists g, {| m_ZCTA5CE20 := a_ZCTA5CE20 a; m_calls := a_calls a;
                   m_hcp_count := a_hcp_count a;
                   m_territory := h_territory h;
                   m_district := h_district h; m_region := h_region h |}.
      split_and!; [done| |done|done].
      apply elem_of_merge_left. exists a. simpl. split_and!; [done..|].
      right. exists h. split_and!; try done. congruence.
Qed.

(** X4.  Where the rows of the master frame come from.  A record is a row
    of the master frame exactly when it joins a shape row and the
    aggregation row of the same zone: it has the shape's geometry and the
    zone's [calls] and [hcp_count]; and either the zone has no hierarchy
    row and the three hierarchy cells read Unassigned, or they are those
    of a hierarchy row of the zone, each null cell reading Unassigned. *)
Theorem master_row_origin shp cp hier db r :
  load_and_process_data (Some shp) (Some cp) (Some hier) = Some db →
  r ∈ master_gdf db ↔
  ∃ g a, g ∈ shp ∧ a ∈ zip_aggregations cp ∧
    g_ZCTA5CE20 g = a_ZCTA5CE20 a ∧
    ZCTA5CE20 r = g_ZCTA5CE20 g ∧ geometry r = g_geometry g ∧
    calls r = a_calls a ∧ hcp_count r = a_hcp_count a ∧
    (((ZCTA5CE20 r ∉ h_zip <$> hier) ∧ territory r = "Unassigned" ∧
      district r = "Unassigned" ∧ region r = "Unassigned") ∨
     (∃ h, h ∈ hier ∧ h_zip h = ZCTA5CE20 r ∧
           territory r = fillna (h_territory h) ∧
           district r = fillna (h_district h) ∧
           region r = fillna (h_region h))).
Proof.
  intros (-> & _ & _)%load_and_process_data_Some. apply elem_of_master_rows.
Qed.

Lemma length_filter_merge_inner_fillna shp merged_df z :
  length (filter (λ r, ZCTA5CE20 r = z) (merge_inner_fillna shp merged_df))
  = (length (filter (λ g, g_ZCTA5CE20 g = z) shp)
     * length (filter (λ m, m_ZCTA5CE20 m = z) merged_df))%nat.
Proof.
  unfold merge_inner_fillna. apply (length_filter_bind_keyed g_ZCTA5CE20).
  - intros g r. by intros (m & -> & _)%list_elem_of_fmap.
  - intros g ->. by rewrite length_fmap.
Qed.

(** X5.  How many rows a zone has in the master frame: one for each
    pairing of a shape row of the zone with a hierarchy row of the zone
    (counted as one when the zone has no hierarchy row), and none when
    the call plan has no row for the zone. *)
Theorem master_row_count shp cp hier db z :
  load_and_process_data (Some shp) (Some cp) (Some hier) = Some db →
  length (filter (λ r, ZCTA5CE20 r = z) (master_gdf db))
  = (length (filter (λ g, g_ZCTA5CE20 g = z) shp)
     * if decide (z ∈ c_zip <$> cp)
       then Nat.max 1 (length (filter (λ h, h_zip h = z) hier))
       else 0)%nat.
Proof.
  intros (-> & _ & _)%load_and_process_data_Some.
  rewrite length_filter_merge_inner_fillna, length_filter_merge_left.
  rewrite (length_filter_key_NoDup a_ZCTA5CE20)
    by (rewrite zip_aggregations_zones; apply NoDup_group_keys).
  f_equal. destruct (decide (z ∈ c_zip <$> cp)) as [Hz|Hz].
  - rewrite decide_True by (by apply elem_of_zip_aggregations_zones). lia.
  - rewrite decide_False; [lia|]. by rewrite elem_of_zip_aggregations_zones.
Qed.

(** X6.  When no zone has two shape rows and no zone has two hierarchy
    rows, no zone has two rows in the master frame. *)
Theorem master_zone_ids_unique shp cp hier db :
  load_and_process_data (Some shp) (Some cp) (Some hier) = Some db →
  NoDup (g_ZCTA5CE20 <$> shp) →
  NoDup (h_zip <$> hier) →
  NoDup (ZCTA5CE20 <$> master_gdf db).
Proof.
  intros (-> & _ & _)%load_and_process_data_Some Hshp Hhier.
  apply NoDup_fmap_of_count. intros z.
  rewrite length_filter_merge_inner_fillna, length_filter_merge_left.
  rewrite (length_filter_key_NoDup g_ZCTA5CE20 shp z Hshp).
  rewrite (length_filter_key_NoDup h_zip hier z Hhier).
  rewrite (length_filter_key_NoDup a_ZCTA5CE20)
    by (rewrite zip_aggregations_zones; apply NoDup_group_keys).
  repeat case_decide; simpl; lia.
Qed.

(** The two metrics of an aggregation row, as sums over the zone's rows
    of the call plan. *)
Lemma zip_aggregations_row cp a :
  a ∈ zip_aggregations cp →
  a_calls a = sumZ (c_calls <$> filter (λ c, c_zip c = a_ZCTA5CE20 a) cp) ∧
  a_hcp_count a
  = sum_exact ((λ c, if c_hcpid c is Some _ then 1 else 0)
               <$> filter (λ c, c_zip c = a_ZCTA5CE20 a) cp).
Proof.
  unfold zip_aggregations. intros (z & -> & _)%list_elem_of_fmap. simpl.
  by rewrite length_dropna_sum.
Qed.

(** Every master row carries the metrics of the aggregation row of its zone. *)
Lemma master_row_metrics shp aggs hier r :
  r ∈ merge_inner_fillna shp (merge_left aggs hier) →
  ZCTA5CE20 r ∈ g_ZCTA5CE20 <$> shp ∧
  ∃ a, a ∈ aggs ∧ a_ZCTA5CE20 a = ZCTA5CE20 r ∧
       calls r = a_calls a ∧ hcp_count r = a_hcp_count a.
Proof.
  intros (g & m & Hg & Hm & Hz & ->)%elem_of_merge_inner_fillna. simpl.
  split; [by apply list_elem_of_fmap_2|].
  apply elem_of_merge_left in Hm as (a & Ha & Hza & Hc & Hn & _).
  exists a. split_and!; [done|congruence|done|done].
Qed.

(** With one shape row and at most one hierarchy row per zone, a metric
    summed over the master frame is the same metric summed over the rows
    of the call plan whose zone has a shape. *)
Lemma master_sum_by_zone shp cp hier (fm : @ZoneRecord Geometry → Z)
    (fa : AggRow → Z) (fc : CallRow → Z) :
  NoDup (g_ZCTA5CE20 <$> shp) →
  NoDup (h_zip <$> hier) →
  (∀ r, r ∈ merge_inner_fillna shp (merge_left (zip_aggregations cp) hier) →
        ∃ a, a ∈ zip_aggregations cp ∧ a_ZCTA5CE20 a = ZCTA5CE20 r ∧
             fm r = fa a) →
  (∀ a, a ∈ zip_aggregations cp →
        wrap_int64 (fa a)
        = sumZ (fc <$> filter (λ c, c_zip c = a_ZCTA5CE20 a) cp)) →
  sumZ (fm <$> merge_inner_fillna shp (merge_left (zip_aggregations cp) hier))
  = sumZ (fc <$> filter (λ c, c_zip c ∈ g_ZCTA5CE20 <$> shp) cp).
Proof.
  intros Hshp Hhier Hrow Hagg.
  set (master := merge_inner_fillna shp (merge_left (zip_aggregations cp) hier))
    in *.
  rewrite <- (sumZ_groups ZCTA5CE20 fm master (g_ZCTA5CE20 <$> shp) Hshp)
    by (intros r Hr; by apply (master_row_metrics _ _ _ _ Hr)).
  rewrite <- (sumZ_groups_among c_zip fc cp (g_ZCTA5CE20 <$> shp) Hshp).
  f_equal. apply list_fmap_ext. intros i z Hzs%list_elem_of_lookup_2. simpl.
  assert (length (filter (λ r, ZCTA5CE20 r = z) master)
          = if decide (z ∈ c_zip <$> cp) then 1%nat else 0%nat) as Hlen.
  { unfold master.
    rewrite length_filter_merge_inner_fillna, length_filter_merge_left.
    rewrite (length_filter_key_NoDup g_ZCTA5CE20 shp z Hshp).
    rewrite (length_filter_key_NoDup h_zip hier z Hhier).
    rewrite (length_filter_key_NoDup a_ZCTA5CE20)
      by (rewrite zip_aggregations_zones; apply NoDup_group_keys).
    rewrite (decide_True (P := z ∈ g_ZCTA5CE20 <$> shp)) by done.
    destruct (decide (z ∈ c_zip <$> cp)) as [Hz|Hz].
    - rewrite (decide_True (P := z ∈ a_ZCTA5CE20 <$> _))
        by (by apply elem_of_zip_aggregations_zones).
      case_decide; simpl; lia.
    - rewrite (decide_False (P := z ∈ a_ZCTA5CE20 <$> _))
        by (by rewrite elem_of_zip_aggregations_zones).
      simpl. lia. }
  destruct (filter (λ r, ZCTA5CE20 r = z) master) as [|r rest] eqn:Hf.
  - destruct (decide (z ∈ c_zip <$> cp)) as [Hz|Hz]; [done|].
    by rewrite filter_key_absent.
  - destruct rest; [|case_decide; simpl in Hlen; lia].
    assert (r ∈ filter (λ r, ZCTA5CE20 r = z) master) as Hin
      by (rewrite Hf; apply list_elem_of_here).
    apply list_elem_of_filter in Hin as [Hz Hr].
    destruct (Hrow r Hr) as (a & Ha & Hza & Hfm).
    rewrite fmap_cons, sumZ_cons. change (sumZ (fm <$> [])) with 0.
    by rewrite Z.add_0_r, Hfm, (Hagg a Ha), Hza, Hz.
Qed.

(** X7.  With one shape row and at most one hierarchy row per zone, the
    master frame accounts for the call plan exactly once.  In 64-bit
    wrap-around arithmetic (an [int64] column), its [calls] have the sum
    of the [calls] cells, and its [hcp_count] the number of non-null
    [hcpid] cells, of the call-plan rows whose zone has a shape. *)
Theorem master_accounts_for_call_plan shp cp hier db :
  load_and_process_data (Some shp) (Some cp) (Some hier) = Some db →
  NoDup (g_ZCTA5CE20 <$> shp) →
  NoDup (h_zip <$> hier) →
  let with_shape := filter (λ c, c_zip c ∈ g_ZCTA5CE20 <$> shp) cp in
  sumZ (calls <$> master_gdf db) = sumZ (c_calls <$> with_shape) ∧
  sumZ (hcp_count <$> master_gdf db)
  = wrap_int64 (Z.of_nat (length (dropna (c_hcpid <$> with_shape)))).
Proof.
  intros (-> & _ & _)%load_and_process_data_Some Hshp Hhier. cbv zeta.
  rewrite length_dropna_sum, <- sumZ_wrap. split.
  - apply (master_sum_by_zone shp cp hier calls a_calls); [done|done|..].
    + intros r Hr.
      destruct (master_row_metrics _ _ _ _ Hr) as (_ & a & Ha & Hz & Hc & _).
      by exists a.
    + intros a Ha. rewrite (proj1 (zip_aggregations_row cp a Ha)).
      apply wrap_int64_small, sumZ_range.
  - apply (master_sum_by_zone shp cp hier hcp_count a_hcp_count); [done|done|..].
    + intros r Hr.
      destruct (master_row_metrics _ _ _ _ Hr) as (_ & a & Ha & Hz & _ & Hn).
      by exists a.
    + intros a Ha. rewrite (proj2 (zip_aggregations_row cp a Ha)).
      by rewrite sumZ_wrap.
Qed.

End MasterFacts.

(** ** The count tables and the thresholds *)

Lemma length_unique_le l : (length (unique l) ≤ length l)%nat.
Proof.
  induction l as [|x l IH]; [done|]. simpl.
  pose proof (length_filter (λ y, y ≠ x) (unique l)). lia.
Qed.

Lemma dropna_nil_iff {A} (col : list (option A)) :
  dropna col = [] ↔ ∀ o, o ∈ col → o = None.
Proof.
  induction col as [|[a|] col IH].
  - split; [by intros _ o ?%elem_of_nil|done].
  - rewrite dropna_cons_Some. split; [done|].
    intros Hall. by specialize (Hall (Some a) (list_elem_of_here _ _)).
  - rewrite dropna_cons_None, IH. split.
    + intros Hall o [->|Ho]%elem_of_cons; [done|by apply Hall].
    + intros Hall o Ho. apply Hall. by apply list_elem_of_further.
Qed.

(** X8.  An entry of a count table is at most the number of raw hierarchy
    rows of that name (of which there is at least one), and it is 0
    exactly when every such row has a null [territory]: a name can be a
    key of the table and still count no territory. *)
Theorem territory_counts_bounds key hierarchy_df nm n :
  territory_counts key hierarchy_df !! nm = Some n →
  let rows := filter (λ h, key h = Some nm) hierarchy_df in
  (1 ≤ length rows)%nat ∧ (n ≤ length rows)%nat ∧
  (n = 0%nat ↔ ∀ h, h ∈ hierarchy_df → key h = Some nm → h_territory h = None).
Proof.
  unfold territory_counts.
  rewrite (lookup_list_to_map_keys
             (λ k, nunique (h_territory <$> filter (λ h, key h = Some k)
                                                   hierarchy_df)))
    by apply NoDup_group_keys.
  case_decide as Hin; [|done]. intros [= <-]. cbv zeta.
  set (rows := filter (λ h, key h = Some nm) hierarchy_df).
  apply elem_of_group_keys, elem_of_dropna, list_elem_of_fmap in Hin
    as (h0 & Hk & Hh0).
  split_and!.
  - assert (h0 ∈ rows) as Hr by (by apply list_elem_of_filter).
    destruct rows; [by apply elem_of_nil in Hr|simpl; lia].
  - unfold nunique.
    pose proof (length_unique_le (dropna (h_territory <$> rows))).
    pose proof (length_dropna_le (h_territory <$> rows)) as Hle.
    rewrite length_fmap in Hle. lia.
  - unfold nunique. split.
    + intros Hn h Hh Hkey.
      assert (dropna (h_territory <$> rows) = []) as Hnil.
      { destruct (dropna (h_territory <$> rows)); [done|simpl in Hn; lia]. }
      apply (proj1 (dropna_nil_iff _) Hnil). apply list_elem_of_fmap_2.
      by apply list_elem_of_filter.
    + intros Hall.
      assert (dropna (h_territory <$> rows) = []) as ->; [|done].
      apply dropna_nil_iff.
      intros o (h & -> & [Hkey Hh]%list_elem_of_filter)%list_elem_of_fmap.
      by apply Hall.
Qed.

Section RouteFacts.

Context {Geometry : Type} (union_all : list Geometry → option Geometry).

Implicit Types (db : @Loaded Geometry) (shp : list (@GeomRow Geometry)).
Implicit Types (units : list (@AggregatedUnit Geometry)).

(** The region rule of the threshold column, on the raw hierarchy. *)
Lemma threshold_of_region shp cp hier db R :
  load_and_process_data (Some shp) (Some cp) (Some hier) = Some db →
  threshold_of db "region" R
  = 250 * Z.of_nat (distinct_territory_count h_region hier R).
Proof.
  intros (_ & _ & Hr)%load_and_process_data_Some.
  unfold threshold_of. simpl. rewrite Hr, territory_counts_lookup.
  case_decide as Hin; simpl.
  - unfold TERRITORY_WORKLOAD_THRESHOLD. lia.
  - by rewrite distinct_territory_count_absent.
Qed.

(** X9.  The region-level threshold of a name [R] is 250 times the number
    of distinct territories (not districts) on the raw hierarchy rows of
    region [R], and 0 when [R] is not a key of the region count table;
    this is the threshold on each unit of a region-level answer, which
    is also the answer to a request without [level]. *)
Theorem region_threshold shp cp hier db R :
  load_and_process_data (Some shp) (Some cp) (Some hier) = Some db →
  threshold_of db "region" R
  = 250 * Z.of_nat (distinct_territory_count h_region hier R) ∧
  (region_terr_counts db !! R = None → threshold_of db "region" R = 0) ∧
  (∀ level_arg units u,
     lower (default "Region" level_arg) = "region" →
     get_geospatial_data union_all (Some db) level_arg = Ok units →
     u ∈ units →
     threshold u
     = 250 * Z.of_nat (distinct_territory_count h_region hier (name u))).
Proof.
  intros Hload. split_and!.
  - by apply (threshold_of_region shp cp).
  - intros Hno. unfold threshold_of. simpl. by rewrite Hno.
  - intros level_arg units u Hl Hok Hu.
    rewrite (unit_threshold _ _ _ _ _ Hok Hu), Hl.
    by apply (threshold_of_region shp cp).
Qed.

(** X10.  Whatever the level, a threshold is a non-negative multiple of
    [TERRITORY_WORKLOAD_THRESHOLD]. *)
Theorem threshold_non_negative_multiple db level_arg units u :
  get_geospatial_data union_all (Some db) level_arg = Ok units →
  u ∈ units →
  (0 ≤ threshold u)%Z ∧ ∃ n : nat, threshold u = Z.of_nat n * 250.
Proof.
  intros Hok Hu. rewrite (unit_threshold _ _ _ _ _ Hok Hu).
  unfold threshold_of, TERRITORY_WORKLOAD_THRESHOLD.
  repeat case_decide.
  - split; [lia|by exists 1%nat].
  - split; [lia|by eexists].
  - split; [lia|by eexists].
  - split; [lia|by exists 0%nat].
Qed.

(** ** The answers of [/data] *)

(** X11.  Whatever the level, an answer lists its units by ascending
    name, no name twice, and never has more units than the master frame
    has rows. *)
Theorem units_ascending_distinct db level_arg units :
  get_geospatial_data union_all (Some db) level_arg = Ok units →
  StronglySorted String.le (name <$> units) ∧
  NoDup (name <$> units) ∧
  (length units ≤ length (master_gdf db))%nat.
Proof.
  intros Hok.
  destruct (column_dissolve_col (Geometry := Geometry)
              (lower (default "Region" level_arg))) as [by_col Hcol].
  destruct (get_geospatial_data_units _ _ _ _ _ Hcol Hok) as [Hnames _].
  split_and!.
  - rewrite Hnames. apply StronglySorted_sorted.
  - rewrite Hnames. apply NoDup_group_keys.
  - rewrite <- (length_fmap name), Hnames. unfold group_keys.
    rewrite sorted_Permutation.
    etrans; [apply length_unique_le|]. by rewrite length_fmap.
Qed.

(** X12.  At a recognised level the units are keyed by that level's
    column: the names are its distinct values, and each unit has the
    union of the geometries (in row order), the sum of [calls] and the
    sum of [hcp_count] of the rows carrying its name. *)
Theorem recognised_level_groups db s by_col units :
  (lower s, by_col) ∈ [("territory", territory); ("district", district);
                       ("region", @region Geometry)] →
  get_geospatial_data union_all (Some db) (Some s) = Ok units →
  name <$> units = group_keys (by_col <$> master_gdf db) ∧
  Forall (unit_of_group union_all db (lower s) by_col) units.
Proof.
  intros Hlvl Hok.
  apply (get_geospatial_data_units union_all db (Some s)); [|done]. simpl.
  repeat (apply elem_of_cons in Hlvl as [[= -> ->]|Hlvl]; [done|]).
  by apply elem_of_nil in Hlvl.
Qed.

(** X13.  [/data] answers with an error exactly when the union of some
    group of the chosen column raises; for a level argument of ASCII
    characters the message then names the lowered level. *)
Theorem processing_error_iff_union_raises db level_arg :
  let level := lower (default "Region" level_arg) in
  ((∃ msg, get_geospatial_data union_all (Some db) level_arg = Error500 msg) ↔
   ∃ by_col k,
     column (dissolve_col level) = Some by_col ∧
     k ∈ by_col <$> master_gdf db ∧
     union_all (geometry <$> filter (λ r, by_col r = k) (master_gdf db)) = None) ∧
  (ascii_only (default "Region" level_arg) →
   ∀ msg, get_geospatial_data union_all (Some db) level_arg = Error500 msg →
          msg = "Failed to process data for level " +:+ level).
Proof.
  cbv zeta. unfold get_geospatial_data. cbv zeta.
  destruct (column_dissolve_col (Geometry := Geometry)
              (lower (default "Region" level_arg))) as [by_col Hcol].
  unfold dissolve. rewrite Hcol. simpl.
  destruct (mapM _ _) as [agg|] eqn:Hm; (split; [split|]).
  - by intros [msg ?].
  - intros (by_col' & k & [= <-] & Hk & Hu). exfalso.
    apply mapM_Some_1 in Hm.
    assert (k ∈ group_keys (by_col <$> master_gdf db)) as Hin
      by (by apply elem_of_group_keys).
    apply list_elem_of_lookup_1 in Hin as [i Hi].
    destruct (Forall2_lookup_l _ _ _ i k Hm Hi) as (d & _ & Hd).
    by rewrite Hu in Hd.
  - done.
  - intros _. apply mapM_None_1, Exists_exists in Hm as (k & Hk & Hu).
    apply (proj1 (elem_of_group_keys _ _)) in Hk.
    exists by_col, k. split_and!; [done..|].
    by destruct (union_all _).
  - intros _. by eexists.
  - by intros _ msg [= <-].
Qed.

(** A frame without shapes, or without merged rows, joins to nothing. *)
Lemma merge_inner_fillna_nil_r shp : merge_inner_fillna shp [] = [].
Proof.
  unfold merge_inner_fillna. induction shp as [|g shp IH]; [done|].
  by rewrite bind_cons, IH.
Qed.

(** X14.  With an empty shapefile or an empty call plan the master frame
    is empty, whatever the hierarchy (whose count tables are made all the
    same), and [/names] lists no name under any of its keys. *)
Theorem empty_inputs_empty_names shp cp hier db :
  load_and_process_data (Some shp) (Some cp) (Some hier) = Some db →
  shp = [] ∨ cp = [] →
  master_gdf db = [] ∧
  district_terr_counts db = territory_counts h_district hier ∧
  ∃ m, get_all_names (Some db) = Ok m ∧
       ∀ k, k ∈ ["region"; "district"; "territory"; "zip"] → m !! k = Some [].
Proof.
  intros (Hm & Hd & _)%load_and_process_data_Some Hempty.
  assert (master_gdf db = []) as Hnil.
  { rewrite Hm. destruct Hempty as [-> | ->]; [done|].
    apply merge_inner_fillna_nil_r. }
  split_and!; [done|done|].
  eexists. split; [reflexivity|]. rewrite Hnil. intros k Hk.
  repeat (apply elem_of_cons in Hk as [->|Hk]; [done|]).
  by apply elem_of_nil in Hk.
Qed.

(** X15.  [/names] and [/data] agree: the list under the key of a level
    ([zip] for the zone level, which any unrecognised level selects) is
    the list of unit names of the answer at that level, in the same
    order. *)
Theorem names_match_units db s units m :
  get_all_names (Some db) = Ok m →
  get_geospatial_data union_all (Some db) (Some s) = Ok units →
  m !! (if decide (lower s ∈ ["territory"; "district"; "region"])
        then lower s else "zip")
  = Some (name <$> units).
Proof.
  intros [= <-] Hok.
  destruct (column_dissolve_col (Geometry := Geometry)
              (lower (default "Region" (Some s)))) as [by_col Hcol].
  destruct (get_geospatial_data_units _ _ _ _ _ Hcol Hok) as [-> _].
  simpl in Hcol. unfold dissolve_col in Hcol.
  destruct (decide (lower s ∈ ["territory"; "district"; "region"]))
    as [Hin|Hin].
  - repeat (apply elem_of_cons in Hin as [Heq|Hin];
            [rewrite Heq in *; by injection Hcol as <-|]).
    by apply elem_of_nil in Hin.
  - by injection Hcol as <-.
Qed.



(** The zones of the master frame: those with calls and a shape. *)
Lemma elem_of_master_zones shp cp hier z :
  z ∈ ZCTA5CE20 <$> merge_inner_fillna shp (merge_left (zip_aggregations cp) hier)
  ↔ z ∈ c_zip <$> cp ∧ z ∈ g_ZCTA5CE20 <$> shp.
Proof.
  rewrite <- elem_of_zip_aggregations_zones, <- (merge_left_zones _ hier).
  rewrite !list_elem_of_fmap. split.
  - intros (r & -> & (g & m & Hg & Hin & Hz & ->)%elem_of_merge_inner_fillna).
    simpl. split; [by exists m|by exists g].
  - intros [(m & -> & Hin) (g & Hz & Hg)].
    eexists. split; [|apply elem_of_merge_inner_fillna; by exists g, m].
    done.
Qed.

(** X17.  The units of a zone-level answer are named by exactly the
    zones that have a row in the call plan and a shape: a zone with a
    shape and a hierarchy row but no calls is in no unit, and neither is
    a zone with calls but no shape. *)
Theorem zone_level_names shp cp hier db s units z :
  load_and_process_data (Some shp) (Some cp) (Some hier) = Some db →
  lower s ∉ ["territory"; "district"; "region"] →
  get_geospatial_data union_all (Some db) (Some s) = Ok units →
  z ∈ name <$> units ↔ z ∈ c_zip <$> cp ∧ z ∈ g_ZCTA5CE20 <$> shp.
Proof.
  intros (Hm & _ & _)%load_and_process_data_Some Hs Hok.
  assert (column (dissolve_col (lower (default "Region" (Some s))))
          = Some (@ZCTA5CE20 Geometry)) as Hc
    by (simpl; by rewrite (dissolve_col_other _ Hs)).
  destruct (get_geospatial_data_units _ _ _ _ _ Hc Hok) as [-> _].
  rewrite elem_of_group_keys, Hm. apply elem_of_master_zones.
Qed.

Lemma fillna_Unassigned cell :
  fillna cell = "Unassigned" ↔ cell = None ∨ cell = Some "Unassigned".
Proof.
  destruct cell as [x|]; simpl; split; auto.
  - intros ->. by right.
  - by intros [|[= ->]].
Qed.

(** X18.  [/names] lists Unassigned among the regions exactly when some
    zone with calls and a shape has no hierarchy row, or has a hierarchy
    row whose [region] is null (or is the literal name Unassigned). *)
Theorem unassigned_region_listed shp cp hier db m lr :
  load_and_process_data (Some shp) (Some cp) (Some hier) = Some db →
  get_all_names (Some db) = Ok m →
  m !! "region" = Some lr →
  "Unassigned" ∈ lr ↔
  ∃ z, z ∈ c_zip <$> cp ∧ z ∈ g_ZCTA5CE20 <$> shp ∧
       ((z ∉ h_zip <$> hier) ∨
        ∃ h, h ∈ hier ∧ h_zip h = z ∧
             (h_region h = None ∨ h_region h = Some "Unassigned")).
Proof.
  intros (Hm & _ & _)%load_and_process_data_Some [= <-].
  simpl. rewrite lookup_insert_eq. intros [= <-].
  rewrite elem_of_sorted, elem_of_unique, list_elem_of_fmap, Hm. split.
  - intros (r & Hreg & Hr). exists (ZCTA5CE20 r).
    assert (ZCTA5CE20 r ∈ c_zip <$> cp ∧ ZCTA5CE20 r ∈ g_ZCTA5CE20 <$> shp)
      as [? ?] by (apply (elem_of_master_zones shp cp hier);
                   by apply list_elem_of_fmap_2).
    split_and!; [done..|].
    apply elem_of_master_rows in Hr
      as (g & a & _ & _ & _ & _ & _ & _ & _ & Hcase).
    destruct Hcase as [(Hno & _)|(h & Hh & Hzip & _ & _ & Hrh)]; [by left|].
    right. exists h. split_and!; [done..|].
    apply fillna_Unassigned. congruence.
  - intros (z & Hzc & Hzs & Hcase).
    apply elem_of_zip_aggregations_zones, list_elem_of_fmap in Hzc
      as (a & -> & Ha).
    apply list_elem_of_fmap in Hzs as (g & Hga & Hg).
    destruct Hcase as [Hno|(h & Hh & Hzip & Hrh)].
    + exists {| ZCTA5CE20 := g_ZCTA5CE20 g; geometry := g_geometry g;
                calls := a_calls a; hcp_count := a_hcp_count a;
                territory := "Unassigned"; district := "Unassigned";
                region := "Unassigned" |}.
      split; [done|]. apply elem_of_master_rows. exists g, a. simpl.
      split_and!; try done. left. by rewrite <- Hga.
    + exists {| ZCTA5CE20 := g_ZCTA5CE20 g; geometry := g_geometry g;
                calls := a_calls a; hcp_count := a_hcp_count a;
                territory := fillna (h_territory h);
                district := fillna (h_district h);
                region := fillna (h_region h) |}.
      split; [simpl; symmetry; by apply fillna_Unassigned|].
      apply elem_of_master_rows. exists g, a. simpl.
      split_and!; try done. right. exists h. split_and!; try done.
      congruence.
Qed.

(** X19.  A district whose raw hierarchy rows all lie in one region never
    has a larger threshold than that region. *)
Theorem district_threshold_within_region shp cp hier db D R :
  load_and_process_data (Some shp) (Some cp) (Some hier) = Some db →
  (∀ h, h ∈ hier → h_district h = Some D → h_region h = Some R) →
  (threshold_of db "district" D ≤ threshold_of db "region" R)%Z.
Proof.
  intros Hload Hin.
  rewrite (threshold_of_region shp cp hier db R Hload).
  rewrite (threshold_of_district shp cp hier db D Hload).
  unfold TERRITORY_WORKLOAD_THRESHOLD.
  assert (distinct_territory_count h_district hier D
          ≤ distinct_territory_count h_region hier R)%nat; [|lia].
  unfold distinct_territory_count. apply subseteq_size.
  intros t. rewrite !elem_of_list_to_set, !elem_of_dropna.
  intros (h & Ht & [Hd Hh]%list_elem_of_filter)%list_elem_of_fmap.
  apply list_elem_of_fmap. exists h. split; [done|].
  apply list_elem_of_filter. auto.
Qed.

Lemma sum_exact_constant {A} (f : A → Z) (l : list A) c :
  (∀ x, x ∈ l → f x = c) → sum_exact (f <$> l) = Z.of_nat (length l) * c.
Proof.
  induction l as [|x l IH]; intros Hc; [done|].
  rewrite fmap_cons, sum_exact_cons, IH, (Hc x)
    by eauto using list_elem_of_here, list_elem_of_further.
  simpl length. lia.
Qed.

Lemma sumZ_constant {A} (f : A → Z) (l : list A) c :
  (∀ x, x ∈ l → f x = c) →
  sumZ (f <$> l) = wrap_int64 (Z.of_nat (length l) * c).
Proof. intros Hc. by rewrite sumZ_wrap, (sum_exact_constant f l c). Qed.

(** X20.  The [calls] of a zone-level unit are, in 64-bit wrap-around
    arithmetic (an [int64] column), the zone's call-plan total once for
    every row the zone has in the master frame: once when the zone has
    one shape row and at most one hierarchy row, and several times over
    when the zone is repeated in the shapefile or in the hierarchy
    file. *)
Theorem zone_unit_calls shp cp hier db s units u :
  load_and_process_data (Some shp) (Some cp) (Some hier) = Some db →
  lower s ∉ ["territory"; "district"; "region"] →
  get_geospatial_data union_all (Some db) (Some s) = Ok units →
  u ∈ units →
  u_calls u
  = wrap_int64
      (Z.of_nat (length (filter (λ g, g_ZCTA5CE20 g = name u) shp)
                 * Nat.max 1 (length (filter (λ h, h_zip h = name u) hier)))
       * sumZ (c_calls <$> filter (λ c, c_zip c = name u) cp)).
Proof.
  intros (Hm & _ & _)%load_and_process_data_Some Hs Hok Hu.
  assert (column (dissolve_col (lower (default "Region" (Some s))))
          = Some (@ZCTA5CE20 Geometry)) as Hc
    by (simpl; by rewrite (dissolve_col_other _ Hs)).
  destruct (get_geospatial_data_units _ _ _ _ _ Hc Hok) as [Hnames HF].
  rewrite Forall_forall in HF. destruct (HF u Hu) as (_ & -> & _ & _).
  assert (name u ∈ c_zip <$> cp) as Hz.
  { apply (elem_of_master_zones shp cp hier). rewrite <- Hm.
    apply elem_of_group_keys. rewrite <- Hnames.
    by apply list_elem_of_fmap_2. }
  rewrite (sumZ_constant calls _
             (sumZ (c_calls <$> filter (λ c, c_zip c = name u) cp))).
  - f_equal. f_equal. f_equal. rewrite Hm.
    rewrite length_filter_merge_inner_fillna, length_filter_merge_left.
    rewrite (length_filter_key_NoDup a_ZCTA5CE20)
      by (rewrite zip_aggregations_zones; apply NoDup_group_keys).
    rewrite decide_True by (by apply elem_of_zip_aggregations_zones). lia.
  - intros r [Hzr Hr]%list_elem_of_filter. rewrite Hm in Hr.
    destruct (master_row_metrics _ _ _ _ Hr) as (_ & a & Ha & Hza & -> & _).
    by rewrite (proj1 (zip_aggregations_row cp a Ha)), Hza, Hzr.
Qed.

End RouteFacts.

(** ** The order of the rows of the input files *)

Lemma group_keys_perm l l' : l ≡ₚ l' → group_keys l = group_keys l'.
Proof.
  intros Hp. apply (StronglySorted_unique String.le).
  - apply StronglySorted_sorted.
  - apply StronglySorted_sorted.
  - apply NoDup_Permutation; [apply NoDup_group_keys..|].
    intros x. by rewrite !elem_of_group_keys, Hp.
Qed.

Lemma zip_aggregations_perm cp cp' :
  cp ≡ₚ cp' → zip_aggregations cp = zip_aggregations cp'.
Proof.
  intros Hp. unfold zip_aggregations.
  rewrite (group_keys_perm (c_zip <$> cp) (c_zip <$> cp'))
    by (by apply fmap_Permutation).
  apply list_fmap_ext. intros _ z _. simpl. f_equal.
  - apply sumZ_Permutation. by rewrite Hp.
  - f_equal. apply Permutation_length. unfold dropna. by rewrite Hp.
Qed.

Lemma bind_perm_pointwise {A B} (f g : A → list B) (l : list A) :
  (∀ a, f a ≡ₚ g a) → l ≫= f ≡ₚ l ≫= g.
Proof.
  intros Hfg. induction l as [|a l IH]; [done|].
  by rewrite !bind_cons, IH, (Hfg a).
Qed.

Lemma merge_left_perm aggs hier hier' :
  hier ≡ₚ hier' → merge_left aggs hier ≡ₚ merge_left aggs hier'.
Proof.
  intros Hp. unfold merge_left. apply bind_perm_pointwise. intros a.
  assert (filter (λ h, h_zip h = a_ZCTA5CE20 a) hier
          ≡ₚ filter (λ h, h_zip h = a_ZCTA5CE20 a) hier') as Hf
    by (by rewrite Hp).
  destruct (filter _ hier) as [|h0 hs], (filter _ hier') as [|h0' hs'].
  - done.
  - by apply Permutation_nil_cons in Hf.
  - symmetry in Hf. by apply Permutation_nil_cons in Hf.
  - by apply fmap_Permutation.
Qed.

Lemma territory_counts_perm key hier hier' :
  hier ≡ₚ hier' → territory_counts key hier = territory_counts key hier'.
Proof.
  intros Hp. apply map_eq. intros nm. rewrite !territory_counts_lookup.
  assert (distinct_territory_count key hier nm
          = distinct_territory_count key hier' nm) as ->.
  { unfold distinct_territory_count. f_equal. apply set_eq. intros t.
    rewrite !elem_of_list_to_set. unfold dropna. by rewrite Hp. }
  destruct (decide (Some nm ∈ key <$> hier)) as [Hin|Hin];
    rewrite Hp in Hin; [by rewrite decide_True|by rewrite decide_False].
Qed.

(** A column that is a function of the key column. *)
Lemma fmap_determined {A B} (key : A → string) (num : A → B)
    (F : string → B) (l : list A) :
  Forall (λ u, num u = F (key u)) l → num <$> l = F <$> (key <$> l).
Proof.
  induction 1 as [|u l Hu _ IH]; [done|].
  by rewrite !fmap_cons, IH, Hu.
Qed.

Section OrderFacts.

Context {Geometry : Type} (union_all : list Geometry → option Geometry).

Implicit Types (db : @Loaded Geometry) (shp : list (@GeomRow Geometry)).
Implicit Types (units : list (@AggregatedUnit Geometry)).

Lemma merge_inner_fillna_perm shp shp' merged merged' :
  shp ≡ₚ shp' → merged ≡ₚ merged' →
  merge_inner_fillna shp merged ≡ₚ merge_inner_fillna shp' merged'.
Proof.
  intros Hs Hm. unfold merge_inner_fillna. rewrite <- Hs.
  apply bind_perm_pointwise. intros g. by rewrite Hm.
Qed.

(** X21.  The numbers of an answer do not depend on the order of the rows
    in the three input files ([calls] being an [int64] column, whose
    wrap-around sums do not depend on the order of the terms): permuting
    the rows permutes the rows of the master frame, leaves the two count
    tables as they are, and leaves the names, [calls], [hcp_count] and
    thresholds of the units of every answer as they are (only the order
    in which geometries are handed to the union can change). *)
Theorem row_order_irrelevant
    shp shp' cp cp' hier hier' db db' level_arg units units' :
  shp ≡ₚ shp' → cp ≡ₚ cp' → hier ≡ₚ hier' →
  load_and_process_data (Some shp) (Some cp) (Some hier) = Some db →
  load_and_process_data (Some shp') (Some cp') (Some hier') = Some db' →
  get_geospatial_data union_all (Some db) level_arg = Ok units →
  get_geospatial_data union_all (Some db') level_arg = Ok units' →
  master_gdf db ≡ₚ master_gdf db' ∧
  district_terr_counts db = district_terr_counts db' ∧
  region_terr_counts db = region_terr_counts db' ∧
  name <$> units = name <$> units' ∧
  u_calls <$> units = u_calls <$> units' ∧
  u_hcp_count <$> units = u_hcp_count <$> units' ∧
  threshold <$> units = threshold <$> units'.
Proof.
  intros Hs Hc Hh (Hm & Hd & Hr)%load_and_process_data_Some
         (Hm' & Hd' & Hr')%load_and_process_data_Some Hok Hok'.
  assert (master_gdf db ≡ₚ master_gdf db') as Hmp.
  { rewrite Hm, Hm', (zip_aggregations_perm cp cp' Hc).
    by apply merge_inner_fillna_perm, merge_left_perm. }
  assert (district_terr_counts db = district_terr_counts db') as Hdd
    by (rewrite Hd, Hd'; by apply territory_counts_perm).
  assert (region_terr_counts db = region_terr_counts db') as Hrr
    by (rewrite Hr, Hr'; by apply territory_counts_perm).
  split_and!; [done..| | | |];
    destruct (column_dissolve_col (Geometry := Geometry)
                (lower (default "Region" level_arg))) as [by_col Hcol];
    destruct (get_geospatial_data_units _ _ _ _ _ Hcol Hok) as [Hn HF];
    destruct (get_geospatial_data_units _ _ _ _ _ Hcol Hok') as [Hn' HF'];
    assert (name <$> units = name <$> units') as Hnn
      by (rewrite Hn, Hn'; apply group_keys_perm; by rewrite Hmp).
  - done.
  - rewrite (fmap_determined name u_calls
               (λ k, sumZ (calls <$> filter (λ r, by_col r = k) (master_gdf db)))
               units)
      by (eapply Forall_impl; [exact HF|]; by intros u (_ & ? & _)).
    rewrite (fmap_determined name u_calls
               (λ k, sumZ (calls <$> filter (λ r, by_col r = k) (master_gdf db')))
               units')
      by (eapply Forall_impl; [exact HF'|]; by intros u (_ & ? & _)).
    rewrite Hnn. apply list_fmap_ext. intros _ k _. simpl.
    apply sumZ_Permutation. by rewrite Hmp.
  - rewrite (fmap_determined name u_hcp_count
               (λ k, sumZ (hcp_count <$> filter (λ r, by_col r = k)
                                                (master_gdf db))) units)
      by (eapply Forall_impl; [exact HF|]; by intros u (_ & _ & ? & _)).
    rewrite (fmap_determined name u_hcp_count
               (λ k, sumZ (hcp_count <$> filter (λ r, by_col r = k)
                                                (master_gdf db'))) units')
      by (eapply Forall_impl; [exact HF'|]; by intros u (_ & _ & ? & _)).
    rewrite Hnn. apply list_fmap_ext. intros _ k _. simpl.
    apply sumZ_Permutation. by rewrite Hmp.
  - rewrite (fmap_determined name threshold
               (threshold_of db (lower (default "Region" level_arg))) units)
      by (eapply Forall_impl; [exact HF|]; by intros u (_ & _ & _ & ?)).
    rewrite (fmap_determined name threshold
               (threshold_of db' (lower (default "Region" level_arg))) units')
      by (eapply Forall_impl; [exact HF'|]; by intros u (_ & _ & _ & ?)).
    rewrite Hnn. apply list_fmap_ext. intros _ k _.
    unfold threshold_of. by rewrite Hdd, Hrr.
Qed.

End OrderFacts.

(** ** The further properties at the small data set *)


Lemma master_row_origin_witness :
  load_and_process_data (Some ex_shapefile) (Some ex_call_plan)
    (Some ex_hierarchy) = Some ex_db ∧
  ∃ r g a, r ∈ master_gdf ex_db ∧ ZCTA5CE20 r = "10001" ∧
           g ∈ ex_shapefile ∧ a ∈ zip_aggregations ex_call_plan ∧
           geometry r = g_geometry g ∧ calls r = a_calls a.
Proof.
  split; [reflexivity|].
  set (r := {| ZCTA5CE20 := "10001"; geometry := [1%nat]; calls := 270;
               hcp_count := 2; territory := "T1"; district := "D1";
               region := "R1" |}).
  assert (r ∈ master_gdf ex_db) as Hr
    by (apply list_elem_of_further, list_elem_of_here).
  destruct (proj1 (master_row_origin ex_shapefile ex_call_plan ex_hierarchy
                     ex_db r eq_refl) Hr)
    as (g & a & Hg & Ha & _ & _ & Hgeo & Hc & _).
  by exists r, g, a.
Defined.

Lemma master_row_count_witness :
  load_and_process_data (Some ex_shapefile) (Some ex_call_plan)
    (Some ex_hierarchy_twice)
  = Some {| master_gdf :=
              merge_inner_fillna ex_shapefile
                (merge_left (zip_aggregations ex_call_plan) ex_hierarchy_twice);
            district_terr_counts := territory_counts h_district ex_hierarchy_twice;
            region_terr_counts := territory_counts h_region ex_hierarchy_twice |} ∧
  length (filter (λ r, ZCTA5CE20 r = "10001")
            (merge_inner_fillna ex_shapefile
               (merge_left (zip_aggregations ex_call_plan) ex_hierarchy_twice)))
  = 2%nat.
Proof.
  split; [reflexivity|].
  exact (master_row_count ex_shapefile ex_call_plan ex_hierarchy_twice _
           "10001" eq_refl).
Defined.

Lemma master_zone_ids_unique_witness :
  load_and_process_data (Some ex_shapefile) (Some ex_call_plan)
    (Some ex_hierarchy) = Some ex_db ∧
  NoDup (g_ZCTA5CE20 <$> ex_shapefile) ∧
  NoDup (h_zip <$> ex_hierarchy) ∧
  NoDup (ZCTA5CE20 <$> master_gdf ex_db).
Proof.
  assert (NoDup (g_ZCTA5CE20 <$> ex_shapefile)) as Hs by by_evaluation.
  assert (NoDup (h_zip <$> ex_hierarchy)) as Hh by by_evaluation.
  split_and!; [reflexivity|exact Hs|exact Hh|].
  exact (master_zone_ids_unique ex_shapefile ex_call_plan ex_hierarchy ex_db
           eq_refl Hs Hh).
Defined.

Lemma master_accounts_for_call_plan_witness :
  load_and_process_data (Some ex_shapefile) (Some ex_call_plan)
    (Some ex_hierarchy) = Some ex_db ∧
  NoDup (g_ZCTA5CE20 <$> ex_shapefile) ∧
  NoDup (h_zip <$> ex_hierarchy) ∧
  sumZ (calls <$> master_gdf ex_db)
  = sumZ (c_calls <$> filter (λ c, c_zip c ∈ g_ZCTA5CE20 <$> ex_shapefile)
                             ex_call_plan).
Proof.
  assert (NoDup (g_ZCTA5CE20 <$> ex_shapefile)) as Hs by by_evaluation.
  assert (NoDup (h_zip <$> ex_hierarchy)) as Hh by by_evaluation.
  split_and!; [reflexivity|exact Hs|exact Hh|].
  exact (proj1 (master_accounts_for_call_plan ex_shapefile ex_call_plan
                  ex_hierarchy ex_db eq_refl Hs Hh)).
Defined.

Lemma territory_counts_bounds_witness :
  territory_counts h_district ex_hierarchy !! "D1" = Some 3%nat ∧
  (3 ≤ length (filter (λ h, h_district h = Some "D1") ex_hierarchy))%nat.
Proof.
  split; [reflexivity|].
  exact (proj1 (proj2 (territory_counts_bounds h_district ex_hierarchy "D1" 3
                         eq_refl))).
Defined.

Lemma region_threshold_witness :
  load_and_process_data (Some ex_shapefile) (Some ex_call_plan)
    (Some ex_hierarchy) = Some ex_db ∧
  threshold_of ex_db "region" "R1" = 750.
Proof.
  split; [reflexivity|].
  destruct (region_threshold cells_union ex_shapefile ex_call_plan
              ex_hierarchy ex_db "R1" eq_refl) as (-> & _).
  reflexivity.
Defined.

Lemma threshold_non_negative_multiple_witness :
  get_geospatial_data cells_union (Some ex_db) (Some "district")
  = Ok ex_district_units ∧
  (0 ≤ 750)%Z ∧ ∃ n : nat, 750 = Z.of_nat n * 250.
Proof.
  split; [reflexivity|].
  apply (threshold_non_negative_multiple cells_union ex_db (Some "district")
           ex_district_units
           {| name := "D1"; u_calls := 275; u_hcp_count := 3; threshold := 750;
              u_geometry := [1%nat; 2%nat] |}); [reflexivity|].
  apply list_elem_of_here.
Defined.

Lemma units_ascending_distinct_witness :
  get_geospatial_data cells_union (Some ex_db) (Some "territory")
  = Ok ex_territory_units ∧
  StronglySorted String.le (name <$> ex_territory_units) ∧
  NoDup (name <$> ex_territory_units) ∧
  (length ex_territory_units ≤ length (master_gdf ex_db))%nat.
Proof.
  split; [reflexivity|].
  exact (units_ascending_distinct cells_union ex_db (Some "territory")
           ex_territory_units eq_refl).
Defined.

Lemma recognised_level_groups_witness :
  (lower "District", @district (list nat))
    ∈ [("territory", territory); ("district", district); ("region", region)] ∧
  get_geospatial_data cells_union (Some ex_db) (Some "District")
  = Ok ex_district_units ∧
  name <$> ex_district_units = group_keys (district <$> master_gdf ex_db).
Proof.
  assert ((lower "District", @district (list nat))
            ∈ [("territory", territory); ("district", district);
               ("region", region)]) as Hl
    by (apply list_elem_of_further, list_elem_of_here).
  split_and!; [exact Hl|reflexivity|].
  exact (proj1 (recognised_level_groups cells_union ex_db "District" district
                  ex_district_units Hl eq_refl)).
Defined.

(** With the hierarchy that lists zone 10001 twice, the zone has two rows
    of the same shape; a union that raises on overlapping shapes makes
    the zone-level request fail. *)
Lemma processing_error_iff_union_raises_witness :
  ∃ db, load_and_process_data (Some ex_shapefile) (Some ex_call_plan)
          (Some ex_hierarchy_twice) = Some db ∧
        get_geospatial_data overlap_union (Some db) (Some "Zone")
        = Error500 "Failed to process data for level zone" ∧
        (∃ by_col k,
           column (dissolve_col "zone") = Some by_col ∧
           k ∈ by_col <$> master_gdf db ∧
           overlap_union (geometry <$> filter (λ r, by_col r = k) (master_gdf db))
           = None) ∧
        ascii_only "Zone" ∧
        ∀ msg, get_geospatial_data overlap_union (Some db) (Some "Zone")
               = Error500 msg →
               msg = "Failed to process data for level zone".
Proof.
  set (db := {| master_gdf :=
                  merge_inner_fillna ex_shapefile
                    (merge_left (zip_aggregations ex_call_plan)
                       ex_hierarchy_twice);
                district_terr_counts :=
                  territory_counts h_district ex_hierarchy_twice;
                region_terr_counts :=
                  territory_counts h_region ex_hierarchy_twice |}).
  assert (ascii_only "Zone") as Hascii by (simpl; repeat split; lia).
  exists db. split; [reflexivity|]. split; [reflexivity|].
  destruct (processing_error_iff_union_raises overlap_union db (Some "Zone"))
    as [Hiff Hmsg].
  split_and!; [|exact Hascii|exact (Hmsg Hascii)].
  apply (proj1 Hiff). by eexists.
Defined.

Lemma empty_inputs_empty_names_witness :
  load_and_process_data (Some ex_shapefile) (Some []) (Some ex_hierarchy)
  = Some {| master_gdf := [];
            district_terr_counts := territory_counts h_district ex_hierarchy;
            region_terr_counts := territory_counts h_region ex_hierarchy |} ∧
  (ex_shapefile = [] ∨ @nil CallRow = []) ∧
  ∃ m, @get_all_names (list nat)
         (Some {| master_gdf := [];
                  district_terr_counts :=
                    territory_counts h_district ex_hierarchy;
                  region_terr_counts :=
                    territory_counts h_region ex_hierarchy |}) = Ok m ∧
       ∀ k, k ∈ ["region"; "district"; "territory"; "zip"] → m !! k = Some [].
Proof.
  split_and!; [reflexivity|by right|].
  exact (proj2 (proj2 (empty_inputs_empty_names ex_shapefile []
                         ex_hierarchy _ eq_refl (or_intror eq_refl)))).
Defined.

Lemma names_match_units_witness :
  get_geospatial_data cells_union (Some ex_db) (Some "District")
  = Ok ex_district_units ∧
  ∃ m, get_all_names (Some ex_db) = Ok m ∧
       m !! "district" = Some (name <$> ex_district_units).
Proof.
  split; [reflexivity|]. eexists. split; [reflexivity|].
  exact (names_match_units cells_union ex_db "District" ex_district_units _
           eq_refl eq_refl).
Defined.


Lemma zone_level_names_witness :
  load_and_process_data (Some ex_shapefile) (Some ex_call_plan)
    (Some ex_hierarchy) = Some ex_db ∧
  (lower "zip" ∉ ["territory"; "district"; "region"]) ∧
  get_geospatial_data cells_union (Some ex_db) (Some "zip") = Ok ex_zone_units ∧
  ("10009" ∈ name <$> ex_zone_units ↔
   "10009" ∈ c_zip <$> ex_call_plan ∧ "10009" ∈ g_ZCTA5CE20 <$> ex_shapefile).
Proof.
  assert (lower "zip" ∉ ["territory"; "district"; "region"]) as Hs
    by by_evaluation.
  split_and!; [reflexivity|exact Hs|reflexivity|].
  exact (zone_level_names cells_union ex_shapefile ex_call_plan ex_hierarchy
           ex_db "zip" ex_zone_units "10009" eq_refl Hs eq_refl).
Defined.

Lemma unassigned_region_listed_witness :
  load_and_process_data (Some ex_shapefile) (Some ex_call_plan)
    (Some ex_hierarchy) = Some ex_db ∧
  ∃ m, get_all_names (Some ex_db) = Ok m ∧
       m !! "region" = Some ["R1"; "Unassigned"] ∧
       ∃ z, z ∈ c_zip <$> ex_call_plan ∧ z ∈ g_ZCTA5CE20 <$> ex_shapefile ∧
            ((z ∉ h_zip <$> ex_hierarchy) ∨
             ∃ h, h ∈ ex_hierarchy ∧ h_zip h = z ∧
                  (h_region h = None ∨ h_region h = Some "Unassigned")).
Proof.
  split; [reflexivity|]. eexists. split; [reflexivity|].
  split; [reflexivity|].
  apply (proj1 (unassigned_region_listed ex_shapefile ex_call_plan ex_hierarchy
                  ex_db _ ["R1"; "Unassigned"] eq_refl eq_refl eq_refl)).
  apply list_elem_of_further, list_elem_of_here.
Defined.

Lemma district_threshold_within_region_witness :
  load_and_process_data (Some ex_shapefile) (Some ex_call_plan)
    (Some ex_hierarchy) = Some ex_db ∧
  (∀ h, h ∈ ex_hierarchy → h_district h = Some "D1" → h_region h = Some "R1") ∧
  (threshold_of ex_db "district" "D1" ≤ threshold_of ex_db "region" "R1")%Z.
Proof.
  assert (∀ h, h ∈ ex_hierarchy → h_district h = Some "D1" →
               h_region h = Some "R1") as Hin.
  { intros h Hh. unfold ex_hierarchy in Hh.
    repeat (apply elem_of_cons in Hh as [->|Hh]; [by simpl|]).
    by apply elem_of_nil in Hh. }
  split_and!; [reflexivity|exact Hin|].
  exact (district_threshold_within_region ex_shapefile ex_call_plan
           ex_hierarchy ex_db "D1" "R1" eq_refl Hin).
Defined.

Lemma zone_unit_calls_witness :
  ∃ db units,
    load_and_process_data (Some ex_shapefile) (Some ex_call_plan)
      (Some ex_hierarchy_twice) = Some db ∧
    (lower "zone" ∉ ["territory"; "district"; "region"]) ∧
    get_geospatial_data cells_union (Some db) (Some "zone") = Ok units ∧
    {| name := "10001"; u_calls := 540; u_hcp_count := 4; threshold := 0;
       u_geometry := [1%nat; 1%nat] |} ∈ units ∧
    540 = wrap_int64 (Z.of_nat (1 * 2) * 270).
Proof.
  assert (lower "zone" ∉ ["territory"; "district"; "region"]) as Hs
    by by_evaluation.
  eexists _, _. split_and!; [reflexivity|exact Hs|reflexivity|pick_elem|].
  apply (zone_unit_calls cells_union ex_shapefile ex_call_plan
           ex_hierarchy_twice _ "zone" _
           {| name := "10001"; u_calls := 540; u_hcp_count := 4; threshold := 0;
              u_geometry := [1%nat; 1%nat] |} eq_refl Hs eq_refl).
  pick_elem.
Defined.

Lemma row_order_irrelevant_witness :
  ex_shapefile ≡ₚ ex_shapefile ∧
  ex_call_plan ≡ₚ ex_call_plan_rev ∧
  ex_hierarchy ≡ₚ ex_hierarchy_rev ∧
  ∃ db' units',
    load_and_process_data (Some ex_shapefile) (Some ex_call_plan_rev)
      (Some ex_hierarchy_rev) = Some db' ∧
    get_geospatial_data cells_union (Some db') (Some "district") = Ok units' ∧
    u_calls <$> ex_district_units = u_calls <$> units' ∧
    threshold <$> ex_district_units = threshold <$> units'.
Proof.
  assert (ex_call_plan ≡ₚ ex_call_plan_rev) as Hc
    by (symmetry; apply reverse_Permutation).
  assert (ex_hierarchy ≡ₚ ex_hierarchy_rev) as Hh
    by (symmetry; apply reverse_Permutation).
  split_and!; [reflexivity|exact Hc|exact Hh|].
  eexists _, _. split; [reflexivity|]. split; [reflexivity|].
  destruct (row_order_irrelevant cells_union ex_shapefile ex_shapefile
              ex_call_plan ex_call_plan_rev ex_hierarchy ex_hierarchy_rev
              ex_db _ (Some "district") ex_district_units _
              (reflexivity _) Hc Hh eq_refl eq_refl eq_refl eq_refl)
    as (_ & _ & _ & _ & Hcalls & _ & Hthr).
  split; [exact Hcalls|exact Hthr].
Defined.
